(** * Lightstack UI backend: the stack lifecycle handlers of [ui/backend/main.py]

    A shallow embedding of the FastAPI handlers that drive the [init.sh]
    provisioner ([get_stacks], [add_stack], [remove_stack]) and of the bearer
    token gate in front of them ([login_for_access_token],
    [get_current_user]).

    Conventions of the embedding:
    - a Python [str] is a [string]; each character stands for the code point
      of the same number (U+0000 to U+00FF);
    - a handler is a function into [result]: [Return v] is the returned
      value, [Raise e] the exception that leaves the handler;
    - the provisioner process is an argument: a function from the
      subcommand and the text fed on standard input to what the process did;
    - the clock is an argument, in whole seconds since the epoch;
    - the [jwt] library is a pair of functions [jwt_encode], [jwt_decode]. *)

From Stdlib Require Import String Ascii List ZArith Lia Bool DecimalString.
Import ListNotations.
Open Scope string_scope.
Open Scope Z_scope.

(** ** Python string primitives used by the handlers *)

(** [str.isspace] on one character, for the code points below 256:
    TAB..CR, FS..US, SPACE, NEL and NBSP. *)
Definition isspace (c : ascii) : bool :=
  let n := N_of_ascii c in
  (((9 <=? n) && (n <=? 13)) || ((28 <=? n) && (n <=? 32))
   || (n =? 133) || (n =? 160))%N.

(** The regular expression class [\d], for the code points below 256. *)
Definition isdigit (c : ascii) : bool :=
  let n := N_of_ascii c in ((48 <=? n) && (n <=? 57))%N.

Definition newline : ascii := "010"%char.

Definition is_empty (s : string) : bool :=
  match s with EmptyString => true | String _ _ => false end.

(** [s.lstrip()] *)
Fixpoint lstrip (s : string) : string :=
  match s with
  | EmptyString => EmptyString
  | String c s' => if isspace c then lstrip s' else s
  end.

(** [s.rstrip()] *)
Fixpoint rstrip (s : string) : string :=
  match s with
  | EmptyString => EmptyString
  | String c s' =>
      let r := rstrip s' in
      if is_empty r && isspace c then EmptyString else String c r
  end.

(** [s.strip()] *)
Definition strip (s : string) : string := lstrip (rstrip s).

(** [s.split("\n")]: never the empty list, [""] gives [[""]]. *)
Fixpoint split_nl (s : string) : list string :=
  match s with
  | EmptyString => [EmptyString]
  | String c s' =>
      if Ascii.eqb c newline then EmptyString :: split_nl s'
      else match split_nl s' with
           | l :: ls => String c l :: ls
           | [] => [String c EmptyString]
           end
  end.

(** [s.split()]: maximal runs of non-whitespace characters.  [cur] is the
    run being read. *)
Fixpoint split_from (cur : string) (s : string) : list string :=
  match s with
  | EmptyString => if is_empty cur then [] else [cur]
  | String c s' =>
      if isspace c
      then (if is_empty cur then split_from EmptyString s'
            else cur :: split_from EmptyString s')
      else split_from (cur ++ String c EmptyString) s'
  end.

Definition split (s : string) : list string := split_from EmptyString s.

(** [str(n)] for an integer. *)
Definition str_int (n : Z) : string := NilZero.string_of_int (Z.to_int n).

(** [repr(s)] for a string with no quote, backslash or control character. *)
Definition repr_str (s : string) : string := "'" ++ s ++ "'".

(** ** Regular expression [stack_(\d+)] *)

(** The longest run of digits at the start of [s] (the greedy [\d+]). *)
Fixpoint take_digits (s : string) : string :=
  match s with
  | EmptyString => EmptyString
  | String c s' => if isdigit c then String c (take_digits s') else EmptyString
  end.

Fixpoint strip_prefix (p s : string) : option string :=
  match p, s with
  | EmptyString, _ => Some s
  | String a p', String b s' => if Ascii.eqb a b then strip_prefix p' s' else None
  | String _ _, EmptyString => None
  end.

(** A match of [stack_(\d+)] that starts at the first character of [s]:
    group 1 of the match. *)
Definition match_here (s : string) : option string :=
  match strip_prefix "stack_" s with
  | Some rest =>
      let ds := take_digits rest in
      if is_empty ds then None else Some ds
  | None => None
  end.

(** [re.search(r"stack_(\d+)", s)]: the match at the leftmost position
    where one exists; the result is [match.group(1)]. *)
Fixpoint re_search (s : string) : option string :=
  match match_here s with
  | Some ds => Some ds
  | None =>
      match s with
      | EmptyString => None
      | String _ s' => re_search s'
      end
  end.

(** ** Exceptions and results *)

Inductive exn : Type :=
| HTTPException (status_code : Z) (detail : string)
                (headers : option (list (string * string)))
| CalledProcessError (returncode : Z) (cmd : list string)
                     (output stderr : string)
| OSError (errno : Z) (strerror filename : string)
| ValueError (msg : string)
| UnicodeDecodeError (msg : string).

Definition HTTP_401_UNAUTHORIZED : Z := 401.
Definition HTTP_500_INTERNAL_SERVER_ERROR : Z := 500.

Definition repr_list (l : list string) : string :=
  "[" ++ String.concat ", " (map repr_str l) ++ "]".

(** [str(e)].  [HTTPException] renders as Starlette does
    ([f"{status_code}: {detail}"]), [OSError] as CPython does for an error
    with a file name. *)
Definition str_exn (e : exn) : string :=
  match e with
  | HTTPException code detail _ => str_int code ++ ": " ++ detail
  | CalledProcessError rc cmd _ _ =>
      "Command '" ++ repr_list cmd ++ "' returned non-zero exit status "
        ++ str_int rc ++ "."
  | OSError errno strerror filename =>
      "[Errno " ++ str_int errno ++ "] " ++ strerror ++ ": " ++ repr_str filename
  | ValueError msg => msg
  | UnicodeDecodeError msg => msg
  end.

Inductive result (A : Type) : Type :=
| Return (a : A)
| Raise (e : exn).
Arguments Return {A} a.
Arguments Raise {A} e.

Definition bind {A B : Type} (r : result A) (k : A -> result B) : result B :=
  match r with
  | Return a => k a
  | Raise e => Raise e
  end.

Notation "x <- r ;; k" := (bind r (fun x => k))
  (at level 61, r at next level, right associativity).

(** [try: body  except <class> as e: handler e]; [handler] answers [None]
    for an exception that is not of the class. *)
Definition try_except {A : Type} (body : result A)
    (handler : exn -> option (result A)) : result A :=
  match body with
  | Return a => Return a
  | Raise e => match handler e with
               | Some r => r
               | None => Raise e
               end
  end.

(** ** Pydantic models *)

Module Stack.
Record t : Type := mk {
  phoenixd_domain : string;
  lnbits_domain : string;
  use_real_certs : bool;
  use_postgres : bool;
  email : option string
}.
End Stack.

Module StackResponse.
Record t : Type := mk {
  id : string;
  phoenixd_domain : string;
  lnbits_domain : string
}.
End StackResponse.

Module Token.
Record t (token : Type) : Type := mk {
  access_token : token;
  token_type : string
}.
Arguments mk {token}.
Arguments access_token {token}.
Arguments token_type {token}.
End Token.

Record UserInDB : Type := mkUser {
  username : string;
  password : string
}.

(** ** The provisioner process *)

(** What happened to one run of the provisioner: it could not be started
    (the reason is the [errno] and its text), it ran to its exit and wrote
    text, or it ran and what it wrote is not text in the encoding of the
    locale ([msg] is what the [UnicodeDecodeError] of the decoder says). *)
Inductive spawned : Type :=
| StartFailure (errno : Z) (strerror : string)
| Exited (returncode : Z) (stdout stderr : string)
| Undecodable (msg : string).

(** The provisioner: subcommand and standard input to what happened. *)
Definition provisioner : Type := string -> option string -> spawned.

(** [subprocess.CompletedProcess], and the triple that [Popen] followed by
    [communicate] leaves: [returncode], [stdout], [stderr]. *)
Record CompletedProcess : Type := mkCompleted {
  returncode : Z;
  stdout : string;
  stderr : string
}.

(** ** The [jwt] library *)

(** The claims of a token: [sub] and [exp] (seconds since the epoch), each
    present or not.  Subjects are strings, as [login_for_access_token]
    issues them. *)
Record payload : Type := mkPayload {
  sub : option string;
  exp : option Z
}.

(** The subclasses of [jwt.PyJWTError] that [jwt.decode] raises. *)
Inductive PyJWTError : Type :=
| DecodeError
| InvalidSignatureError
| InvalidAlgorithmError
| ExpiredSignatureError.

(** What [jwt.decode] does to a token that [jwt.encode] made with the same
    key and an accepted algorithm: the claims come back, unless the [exp]
    claim is not after the clock. *)
Definition jwt_sound {token : Type}
    (jwt_encode : payload -> string -> string -> token)
    (jwt_decode : Z -> token -> string -> list string -> PyJWTError + payload)
    : Prop :=
  forall now p key alg,
    jwt_decode now (jwt_encode p key alg) key [alg] =
    match exp p with
    | Some e => if e <=? now then inl ExpiredSignatureError else inr p
    | None => inr p
    end.

(** A symbolic token scheme: a token is the claims together with the key
    and algorithm that signed them, or text that is no token at all. *)
Module SymbolicJwt.
Inductive token : Type :=
| Signed (p : payload) (key alg : string)
| Garbage (text : string).

Definition encode (p : payload) (key alg : string) : token := Signed p key alg.

Definition decode (now : Z) (tok : token) (key : string)
    (algorithms : list string) : PyJWTError + payload :=
  match tok with
  | Garbage _ => inl DecodeError
  | Signed p k a =>
      if negb (existsb (String.eqb a) algorithms) then inl InvalidAlgorithmError
      else if negb (String.eqb k key) then inl InvalidSignatureError
      else match exp p with
           | Some e => if e <=? now then inl ExpiredSignatureError else inr p
           | None => inr p
           end
  end.
End SymbolicJwt.

(** ** Configuration *)

Definition ALGORITHM : string := "HS256".
Definition ACCESS_TOKEN_EXPIRE_MINUTES : Z := 30.

(** [timedelta(minutes=m)], in seconds. *)
Definition timedelta_minutes (m : Z) : Z := 60 * m.

Definition USERS_DB : list (string * UserInDB) :=
  [("admin", mkUser "admin" "adminpassword")].

(** [USERS_DB.get(key)] *)
Fixpoint dict_get {V : Type} (d : list (string * V)) (key : string) : option V :=
  match d with
  | [] => None
  | (k, v) :: d' => if String.eqb k key then Some v else dict_get d' key
  end.

(** ** Authentication functions *)

Definition verify_password (plain_password username : string) : bool :=
  match dict_get USERS_DB username with
  | None => false
  | Some user => String.eqb plain_password (password user)
  end.

Definition get_user (username : string) : option UserInDB :=
  dict_get USERS_DB username.

Definition authenticate_user (username password : string) : option UserInDB :=
  match get_user username with
  | None => None
  | Some user =>
      if negb (verify_password password username) then None else Some user
  end.

Definition nl : string := String newline EmptyString.

(** How an f-string renders an [Optional[str]] field. *)
Definition format_optional (o : option string) : string :=
  match o with
  | Some s => s
  | None => "None"
  end.

(** The message of the [ValueError] that unpacking [got] values into
    [expected] names raises. *)
Definition unpack_message (expected got : nat) : string :=
  if (got <? expected)%nat
  then "not enough values to unpack (expected "
         ++ str_int (Z.of_nat expected) ++ ", got "
         ++ str_int (Z.of_nat got) ++ ")"
  else "too many values to unpack (expected "
         ++ str_int (Z.of_nat expected) ++ ")".

(** The body of the [for] loop of [get_stacks], over the lines still to
    read; [stacks] is the list built so far. *)
Fixpoint get_stacks_loop (lines : list string) (stacks : list StackResponse.t)
    : result (list StackResponse.t) :=
  match lines with
  | [] => Return stacks
  | line :: rest =>
      if is_empty line then get_stacks_loop rest stacks
      else
        match split line with
        | [id; phoenixd; lnbits] =>
            get_stacks_loop rest
              (stacks ++ [StackResponse.mk id phoenixd lnbits])%list
        | toks => Raise (ValueError (unpack_message 3 (length toks)))
        end
  end.

(** The text that [add_stack] feeds to the provisioner. *)
Definition answers (stack : Stack.t) : string :=
  Stack.phoenixd_domain stack ++ nl
  ++ Stack.lnbits_domain stack ++ nl
  ++ (if Stack.use_real_certs stack then "y" else "n") ++ nl
  ++ (if Stack.use_real_certs stack
      then format_optional (Stack.email stack) else "") ++ nl
  ++ (if Stack.use_postgres stack then "y" else "n") ++ nl
  ++ "y" ++ nl.

(** ** Vocabulary of the properties *)

(** Every character of [s] is white space. *)
Fixpoint all_space (s : string) : bool :=
  match s with
  | EmptyString => true
  | String c s' => isspace c && all_space s'
  end.

(** Every character of [s] is a digit. *)
Fixpoint all_digits (s : string) : bool :=
  match s with
  | EmptyString => true
  | String c s' => isdigit c && all_digits s'
  end.

Definition starts_with_digit (s : string) : bool :=
  match s with
  | EmptyString => false
  | String c _ => isdigit c
  end.

(** No character of [s] is a line feed. *)
Fixpoint no_newline (s : string) : bool :=
  match s with
  | EmptyString => true
  | String c s' => negb (Ascii.eqb c newline) && no_newline s'
  end.

(** [s] has a substring [stack_] followed by a digit. *)
Definition contains_stack_id (s : string) : Prop :=
  exists pre d rest,
    s = pre ++ "stack_" ++ String d rest /\ isdigit d = true.

(** No match of [stack_(\d+)] starts at one of the first [length pre]
    characters of [pre ++ s]. *)
Fixpoint no_match_within (pre s : string) : bool :=
  match pre with
  | EmptyString => true
  | String _ pre' =>
      match match_here (pre ++ s) with
      | Some _ => false
      | None => no_match_within pre' s
      end
  end.

(** A line of a listing as the provisioner documents it: empty, or three
    fields. *)
Definition well_formed_line (line : string) : bool :=
  is_empty line || (length (split line) =? 3)%nat.

(** A line that [get_stacks] does not skip and cannot unpack. *)
Definition malformed_line (line : string) : bool :=
  negb (is_empty line) && negb (length (split line) =? 3)%nat.

(** The record that [get_stacks] makes of a line. *)
Definition matches_line (line : string) (r : StackResponse.t) : Prop :=
  split line =
  [StackResponse.id r; StackResponse.phoenixd_domain r;
   StackResponse.lnbits_domain r].

(** What [g] makes of the fields of each line, in order. *)
Definition per_line {B : Type} (g : list string -> list B)
    (lines : list string) : list B :=
  flat_map (fun line => g (split line)) lines.

Definition record_of_fields (fields : list string) : list StackResponse.t :=
  match fields with
  | [id; phoenixd; lnbits] => [StackResponse.mk id phoenixd lnbits]
  | _ => []
  end.

(** The records of the lines that have exactly three fields. *)
Definition records (lines : list string) : list StackResponse.t :=
  per_line record_of_fields lines.

(** The fields of the lines that have a field. *)
Definition fields_of_lines (lines : list string) : list (list string) :=
  per_line (fun fields => match fields with [] => [] | _ => [fields] end) lines.

(** A line with at least one field and not exactly three. *)
Definition wrong_field_count (fields : list string) : bool :=
  negb (length fields =? 3)%nat.

(** The lines of a text after [rstrip]: white lines at the end go, and the
    last line left loses its trailing white space. *)
Fixpoint rstrip_lines (ls : list string) : list string :=
  match ls with
  | [] => []
  | l :: ls' =>
      if forallb all_space ls' then [rstrip l] else l :: rstrip_lines ls'
  end.

(** The lines that a process reading [s] on its standard input receives,
    one per line feed; text after the last line feed is a last line.
    [cur] is the line being read. *)
Fixpoint read_lines (cur : string) (s : string) : list string :=
  match s with
  | EmptyString => if is_empty cur then [] else [cur]
  | String c s' =>
      if Ascii.eqb c newline then cur :: read_lines EmptyString s'
      else read_lines (cur ++ String c EmptyString) s'
  end.

Definition stdin_lines (s : string) : list string := read_lines EmptyString s.

(** Line [n] (counted from 1) of what is fed to a process. *)
Definition stdin_line (n : nat) (s : string) : option string :=
  nth_error (stdin_lines s) (Nat.pred n).

(** The number of line feeds in [s]. *)
Fixpoint count_newlines (s : string) : nat :=
  match s with
  | EmptyString => O
  | String c s' =>
      if Ascii.eqb c newline then S (count_newlines s') else count_newlines s'
  end.

(** Some character of [s] is white space. *)
Fixpoint has_space (s : string) : bool :=
  match s with
  | EmptyString => false
  | String c s' => isspace c || has_space s'
  end.

(** A field: not empty and free of white space. *)
Definition is_field (s : string) : bool :=
  negb (is_empty s) && negb (has_space s).

Definition record_of_fields_only (r : StackResponse.t) : bool :=
  is_field (StackResponse.id r)
  && is_field (StackResponse.phoenixd_domain r)
  && is_field (StackResponse.lnbits_domain r).

(** ** Sample requests and provisioner runs *)

Definition sample_init_script : string := "/opt/lightstack/init.sh".

Definition sample_stack : Stack.t :=
  Stack.mk "pay.example.com" "wallet.example.com" false false
    (Some "ops@example.com").

(** Real certificates asked for, no contact email given. *)
Definition sample_stack_no_email : Stack.t :=
  Stack.mk "pay.example.com" "wallet.example.com" true true None.

(** A payment domain of two lines. *)
Definition sample_stack_two_lines : Stack.t :=
  Stack.mk ("pay.example.com" ++ nl ++ "evil.example.com")
    "wallet.example.com" false false None.

Definition sample_stack_two_lines_no_email : Stack.t :=
  Stack.mk ("pay.example.com" ++ nl ++ "evil.example.com")
    "wallet.example.com" true false None.

(** A provisioner that does the same whatever it is asked. *)
Definition provisioner_that (what : spawned) : provisioner := fun _ _ => what.

Definition sample_listing : string :=
  "7 pay.example.com wallet.example.com" ++ nl.

(** A listing that starts with a line of one space. *)
Definition sample_listing_white_first : string :=
  " " ++ nl ++ "7 pay.example.com wallet.example.com" ++ nl.


Definition sample_add_output : string := "Created stack_42 ok" ++ nl.

Definition sample_token_expired : SymbolicJwt.token :=
  SymbolicJwt.Signed (mkPayload (Some "admin") (Some 1900)) "k" "HS256".

Definition sample_token_garbage : SymbolicJwt.token :=
  SymbolicJwt.Garbage "not.a.token".

(** A listing as the provisioner prints it: one line
    [<id> <payment domain> <wallet domain>] for each stack. *)
Definition listing_line (r : StackResponse.t) : string :=
  StackResponse.id r ++ " " ++ StackResponse.phoenixd_domain r
    ++ " " ++ StackResponse.lnbits_domain r.

Fixpoint listing (rs : list StackResponse.t) : string :=
  match rs with
  | [] => EmptyString
  | r :: rs' => listing_line r ++ nl ++ listing rs'
  end.

Definition sample_directory : list StackResponse.t :=
  [StackResponse.mk "7" "pay.example.com" "wallet.example.com";
   StackResponse.mk "12" "pay2.example.com" "wallet2.example.com"].

Definition sample_directory_one : list StackResponse.t :=
  [StackResponse.mk "7" "pay.example.com" "wallet.example.com"].

(** The sample listing between a blank line and trailing blanks. *)
Definition sample_listing_padded : string :=
  nl ++ "  " ++ sample_listing ++ " " ++ nl.

Definition sample_stack_id_two_lines : string := "7" ++ nl ++ "8".

Section Backend.

Variable INIT_SCRIPT : string.
Variable SECRET_KEY : string.

Variable token : Type.
Variable jwt_encode : payload -> string -> string -> token.
Variable jwt_decode : Z -> token -> string -> list string -> PyJWTError + payload.

(** [utcnow] is the clock at the call; [expires_delta] is in seconds, and a
    zero [timedelta] is false in Python. *)
Definition create_access_token (utcnow : Z) (data : payload)
    (expires_delta : option Z) : token :=
  let expire :=
    match expires_delta with
    | Some d => if d =? 0 then utcnow + timedelta_minutes 15 else utcnow + d
    | None => utcnow + timedelta_minutes 15
    end in
  let to_encode := mkPayload (sub data) (Some expire) in
  jwt_encode to_encode SECRET_KEY ALGORITHM.

Definition credentials_exception : exn :=
  HTTPException HTTP_401_UNAUTHORIZED "Could not validate credentials"
    (Some [("WWW-Authenticate", "Bearer")]).

Definition get_current_user (utcnow : Z) (tok : token) : result UserInDB :=
  token_data <-
    match jwt_decode utcnow tok SECRET_KEY [ALGORITHM] with
    | inl _ => Raise credentials_exception
    | inr payload =>
        match sub payload with
        | None => Raise credentials_exception
        | Some username => Return username
        end
    end ;;
  match get_user token_data with
  | None => Raise credentials_exception
  | Some user => Return user
  end.

Definition login_for_access_token (utcnow : Z) (form_username form_password : string)
    : result (Token.t token) :=
  match authenticate_user form_username form_password with
  | None =>
      Raise (HTTPException HTTP_401_UNAUTHORIZED "Incorrect username or password"
               (Some [("WWW-Authenticate", "Bearer")]))
  | Some user =>
      let access_token_expires := timedelta_minutes ACCESS_TOKEN_EXPIRE_MINUTES in
      let access_token :=
        create_access_token utcnow (mkPayload (Some (username user)) None)
          (Some access_token_expires) in
      Return (Token.mk access_token "bearer")
  end.

(** [subprocess.run([INIT_SCRIPT, subcommand], capture_output=True,
    text=True, check=True)]: the output is decoded before the exit code is
    looked at. *)
Definition subprocess_run (init_sh : provisioner) (subcommand : string)
    : result CompletedProcess :=
  match init_sh subcommand None with
  | StartFailure errno strerror => Raise (OSError errno strerror INIT_SCRIPT)
  | Exited rc out err =>
      if rc =? 0 then Return (mkCompleted rc out err)
      else Raise (CalledProcessError rc [INIT_SCRIPT; subcommand] out err)
  | Undecodable msg => Raise (UnicodeDecodeError msg)
  end.

(** [subprocess.Popen([INIT_SCRIPT, subcommand], ...)] followed by
    [process.communicate(input=input)] *)
Definition popen_communicate (init_sh : provisioner) (subcommand input : string)
    : result CompletedProcess :=
  match init_sh subcommand (Some input) with
  | StartFailure errno strerror => Raise (OSError errno strerror INIT_SCRIPT)
  | Exited rc out err => Return (mkCompleted rc out err)
  | Undecodable msg => Raise (UnicodeDecodeError msg)
  end.

Definition get_stacks (init_sh : provisioner) : result (list StackResponse.t) :=
  try_except
    (result <- subprocess_run init_sh "list" ;;
     get_stacks_loop (split_nl (strip (stdout result))) [])
    (fun e =>
       match e with
       | CalledProcessError _ _ _ e_stderr =>
           Some (Raise (HTTPException HTTP_500_INTERNAL_SERVER_ERROR
                          ("Failed to list stacks: " ++ e_stderr) None))
       | _ => None
       end).

(** The [try] block of [add_stack]. *)
Definition add_stack_body (stack : Stack.t) (init_sh : provisioner)
    : result StackResponse.t :=
  process <- popen_communicate init_sh "add" (answers stack) ;;
  if negb (returncode process =? 0)
  then Raise (HTTPException HTTP_500_INTERNAL_SERVER_ERROR
                ("Failed to add stack: " ++ stderr process) None)
  else
    match re_search (stdout process) with
    | None =>
        Raise (HTTPException HTTP_500_INTERNAL_SERVER_ERROR
                 "Failed to extract stack ID from output" None)
    | Some stack_id =>
        Return (StackResponse.mk stack_id (Stack.phoenixd_domain stack)
                  (Stack.lnbits_domain stack))
    end.

(** [except Exception as e: raise HTTPException(500, detail=str(e))] *)
Definition except_Exception {A : Type} (e : exn) : option (result A) :=
  Some (Raise (HTTPException HTTP_500_INTERNAL_SERVER_ERROR (str_exn e) None)).

Definition add_stack (stack : Stack.t) (init_sh : provisioner)
    : result StackResponse.t :=
  try_except (add_stack_body stack init_sh) except_Exception.

(** The text that [remove_stack] feeds to the provisioner. *)
Definition del_answers (stack_id : string) : string :=
  stack_id ++ nl ++ "y" ++ nl.

(** The [try] block of [remove_stack].  The handler answers a JSON object
    with the one key [message]; the result is its value. *)
Definition remove_stack_body (stack_id : string) (init_sh : provisioner)
    : result string :=
  process <- popen_communicate init_sh "del" (del_answers stack_id) ;;
  if negb (returncode process =? 0)
  then Raise (HTTPException HTTP_500_INTERNAL_SERVER_ERROR
                ("Failed to remove stack: " ++ stderr process) None)
  else Return ("Stack " ++ stack_id ++ " removed successfully").

Definition remove_stack (stack_id : string) (init_sh : provisioner)
    : result string :=
  try_except (remove_stack_body stack_id init_sh) except_Exception.

(** [current_user: User = Depends(get_current_user)]: the gate is
    evaluated on the bearer token of the request first, and the handler is
    called only with the user that the gate returns. *)
Definition Depends_get_current_user {A : Type} (utcnow : Z) (tok : token)
    (handler : UserInDB -> result A) : result A :=
  current_user <- get_current_user utcnow tok ;; handler current_user.

(** [GET /stacks] *)
Definition GET_stacks (utcnow : Z) (tok : token) (init_sh : provisioner)
    : result (list StackResponse.t) :=
  Depends_get_current_user utcnow tok (fun _ => get_stacks init_sh).

(** [POST /stacks] *)
Definition POST_stacks (utcnow : Z) (tok : token) (stack : Stack.t)
    (init_sh : provisioner) : result StackResponse.t :=
  Depends_get_current_user utcnow tok (fun _ => add_stack stack init_sh).

(** [DELETE /stacks/{stack_id}] *)
Definition DELETE_stacks (utcnow : Z) (tok : token) (stack_id : string)
    (init_sh : provisioner) : result string :=
  Depends_get_current_user utcnow tok (fun _ => remove_stack stack_id init_sh).

(** ** Facts about the string primitives *)

Lemma append_nil_r (s : string) : s ++ "" = s.
Proof. induction s as [|c s IH]; simpl; [reflexivity | now rewrite IH]. Qed.

Lemma append_assoc (a b c : string) : (a ++ b) ++ c = a ++ (b ++ c).
Proof. induction a as [|x a IH]; simpl; [reflexivity | now rewrite IH]. Qed.

Lemma length_append (a b : string) :
  String.length (a ++ b) = (String.length a + String.length b)%nat.
Proof. induction a as [|x a IH]; simpl; [reflexivity | now rewrite IH]. Qed.

Lemma is_empty_true (s : string) : is_empty s = true -> s = "".
Proof. destruct s; [reflexivity | discriminate]. Qed.

Lemma split_nl_cons (s : string) : exists l ls, split_nl s = l :: ls.
Proof.
  induction s as [|c s (l & ls & IH)]; simpl.
  - now exists "", [].
  - destruct (Ascii.eqb c newline).
    + now exists "", (split_nl s).
    + rewrite IH. now exists (String c l), ls.
Qed.

Lemma rstrip_is_empty (s : string) : is_empty (rstrip s) = all_space s.
Proof.
  induction s as [|c s IH]; simpl; [reflexivity|].
  rewrite IH. destruct (all_space s), (isspace c); reflexivity.
Qed.

Lemma split_from_all_space (s cur : string) :
  all_space s = true ->
  split_from cur s = if is_empty cur then [] else [cur].
Proof.
  revert cur. induction s as [|c s IH]; intros cur H; simpl in *.
  - reflexivity.
  - apply andb_true_iff in H as [Hc Hs]. rewrite Hc.
    rewrite (IH "" Hs). reflexivity.
Qed.

Lemma split_from_rstrip (s cur : string) :
  split_from cur (rstrip s) = split_from cur s.
Proof.
  revert cur. induction s as [|c s IH]; intros cur; simpl; [reflexivity|].
  destruct (is_empty (rstrip s) && isspace c) eqn:E.
  - apply andb_true_iff in E as [Hr Hc].
    rewrite rstrip_is_empty in Hr. rewrite Hc.
    rewrite (split_from_all_space s "" Hr). reflexivity.
  - simpl. now rewrite !IH.
Qed.

Lemma split_rstrip (s : string) : split (rstrip s) = split s.
Proof. apply split_from_rstrip. Qed.

Lemma split_lstrip (s : string) : split (lstrip s) = split s.
Proof.
  unfold split. induction s as [|c s IH]; simpl; [reflexivity|].
  destruct (isspace c) eqn:E; [exact IH | simpl; now rewrite E].
Qed.

Lemma split_all_space (s : string) : all_space s = true -> split s = [].
Proof. intros H. unfold split. now rewrite split_from_all_space. Qed.

Lemma split_leading_space (c : ascii) (s : string) :
  isspace c = true -> split (String c s) = split s.
Proof. intros H. unfold split. simpl. now rewrite H. Qed.

Lemma all_space_lines (s : string) :
  forallb all_space (split_nl s) = all_space s.
Proof.
  induction s as [|c s IH]; simpl; [reflexivity|].
  destruct (Ascii.eqb_spec c newline) as [->|Hc].
  - simpl. exact IH.
  - destruct (split_nl_cons s) as (l & ls & E). rewrite E in *.
    simpl in *. rewrite <- IH. now rewrite andb_assoc.
Qed.

Lemma split_nl_rstrip (s : string) :
  split_nl (rstrip s) = rstrip_lines (split_nl s).
Proof.
  induction s as [|c s IH]; simpl; [reflexivity|].
  pose proof (rstrip_is_empty s) as Hr.
  rewrite <- all_space_lines in Hr.
  destruct (Ascii.eqb_spec c newline) as [->|Hc].
  - cbn [rstrip_lines]. rewrite <- Hr.
    destruct (is_empty (rstrip s)); simpl; [reflexivity | now rewrite IH].
  - destruct (split_nl_cons s) as (l & ls & E). rewrite E in *.
    cbn [rstrip_lines forallb] in *.
    destruct (forallb all_space ls) eqn:Hls.
    + rewrite andb_true_r in Hr. rewrite Hr, <- rstrip_is_empty.
      cbn [rstrip].
      destruct (is_empty (rstrip l) && isspace c) eqn:E2; simpl.
      * reflexivity.
      * apply Ascii.eqb_neq in Hc. now rewrite Hc, IH.
    + rewrite andb_false_r in Hr. rewrite Hr. simpl.
      apply Ascii.eqb_neq in Hc. now rewrite Hc, IH.
Qed.

(** ** What is read from the fields of the lines does not depend on [strip] *)

Section PerLine.

Variable B : Type.
Variable g : list string -> list B.
Hypothesis g_nil : g [] = [].

Lemma per_line_cons (l : string) (ls : list string) :
  per_line g (l :: ls) = (g (split l) ++ per_line g ls)%list.
Proof. reflexivity. Qed.

Lemma per_line_all_space (ls : list string) :
  forallb all_space ls = true -> per_line g ls = [].
Proof.
  induction ls as [|l ls IH]; [reflexivity|].
  cbn [forallb]. intros H. apply andb_true_iff in H as [Hl Hls].
  now rewrite per_line_cons, (IH Hls), (split_all_space l Hl), g_nil.
Qed.

Lemma per_line_rstrip_lines (ls : list string) :
  per_line g (rstrip_lines ls) = per_line g ls.
Proof.
  induction ls as [|l ls IH]; [reflexivity|].
  cbn [rstrip_lines]. destruct (forallb all_space ls) eqn:Hls.
  - now rewrite !per_line_cons, (per_line_all_space ls Hls), split_rstrip.
  - now rewrite !per_line_cons, IH.
Qed.

Lemma per_line_lstrip (s : string) :
  per_line g (split_nl (lstrip s)) = per_line g (split_nl s).
Proof.
  induction s as [|c s IH]; [reflexivity|].
  cbn [lstrip]. destruct (isspace c) eqn:Hsp; [|reflexivity].
  rewrite IH. cbn [split_nl].
  destruct (Ascii.eqb_spec c newline) as [->|Hc].
  - rewrite per_line_cons. change (split "") with (@nil string). now rewrite g_nil.
  - destruct (split_nl_cons s) as (l & ls & E). rewrite E.
    now rewrite !per_line_cons, (split_leading_space c l Hsp).
Qed.

Lemma per_line_strip (s : string) :
  per_line g (split_nl (strip s)) = per_line g (split_nl s).
Proof.
  unfold strip.
  now rewrite per_line_lstrip, split_nl_rstrip, per_line_rstrip_lines.
Qed.

End PerLine.

Lemma records_strip (s : string) :
  records (split_nl (strip s)) = records (split_nl s).
Proof. now apply per_line_strip. Qed.

Lemma fields_of_lines_strip (s : string) :
  fields_of_lines (split_nl (strip s)) = fields_of_lines (split_nl s).
Proof. now apply per_line_strip. Qed.

Lemma records_cons (l : string) (ls : list string) :
  records (l :: ls) = (record_of_fields (split l) ++ records ls)%list.
Proof. reflexivity. Qed.

(** ** A well-formed listing stays well formed under [strip] *)

Lemma well_formed_same_split (l l' : string) :
  split l = split l' -> (is_empty l = true -> is_empty l' = true) ->
  well_formed_line l = true -> well_formed_line l' = true.
Proof.
  unfold well_formed_line. intros Hs He H.
  apply orb_true_iff in H as [H|H]; apply orb_true_iff.
  - left. auto.
  - right. now rewrite <- Hs.
Qed.

Lemma well_formed_rstrip (l : string) :
  well_formed_line l = true -> well_formed_line (rstrip l) = true.
Proof.
  apply well_formed_same_split.
  - symmetry. apply split_rstrip.
  - intros H. now rewrite (is_empty_true l H).
Qed.

Lemma well_formed_rstrip_lines (ls : list string) :
  forallb well_formed_line ls = true ->
  forallb well_formed_line (rstrip_lines ls) = true.
Proof.
  induction ls as [|l ls IH]; simpl; [reflexivity|].
  intros H. apply andb_true_iff in H as [Hl Hls].
  destruct (forallb all_space ls); simpl.
  - now rewrite well_formed_rstrip.
  - now rewrite Hl, IH.
Qed.

Lemma well_formed_lstrip (s : string) :
  forallb well_formed_line (split_nl s) = true ->
  forallb well_formed_line (split_nl (lstrip s)) = true.
Proof.
  induction s as [|c s IH]; [reflexivity|].
  cbn [lstrip]. destruct (isspace c) eqn:Hsp; [|trivial].
  intros H. apply IH. revert H. cbn [split_nl].
  destruct (Ascii.eqb_spec c newline) as [->|Hc].
  - simpl. trivial.
  - destruct (split_nl_cons s) as (l & ls & E). rewrite E.
    cbn [forallb]. intros H. apply andb_true_iff in H as [Hl Hls].
    rewrite Hls, andb_true_r.
    unfold well_formed_line in *. simpl in Hl.
    rewrite (split_leading_space c l Hsp) in Hl. rewrite Hl.
    apply orb_true_r.
Qed.

Lemma well_formed_strip (s : string) :
  forallb well_formed_line (split_nl s) = true ->
  forallb well_formed_line (split_nl (strip s)) = true.
Proof.
  intros H. unfold strip. apply well_formed_lstrip.
  rewrite split_nl_rstrip. now apply well_formed_rstrip_lines.
Qed.

(** ** The loop of [get_stacks] *)

Lemma get_stacks_loop_well_formed (ls : list string) (acc : list StackResponse.t) :
  forallb well_formed_line ls = true ->
  get_stacks_loop ls acc = Return (acc ++ records ls)%list.
Proof.
  revert acc. induction ls as [|l ls IH]; intros acc H.
  - simpl. now rewrite app_nil_r.
  - cbn [forallb] in H. apply andb_true_iff in H as [Hl Hls].
    rewrite records_cons. cbn [get_stacks_loop].
    unfold well_formed_line in Hl.
    destruct l as [|x l]; [simpl; now apply IH|].
    cbn [is_empty orb] in Hl |- *.
    destruct (split (String x l)) as [|a [|b [|c [|d t]]]]; try discriminate.
    rewrite (IH _ Hls). simpl. now rewrite <- app_assoc.
Qed.

Lemma get_stacks_loop_malformed (ls : list string) (acc : list StackResponse.t) :
  existsb malformed_line ls = true ->
  exists msg, get_stacks_loop ls acc = Raise (ValueError msg).
Proof.
  revert acc. induction ls as [|l ls IH]; intros acc H; [discriminate|].
  cbn [existsb] in H. cbn [get_stacks_loop].
  unfold malformed_line in H at 1.
  destruct (is_empty l) eqn:He.
  - simpl in H. now apply IH.
  - simpl in H.
    destruct (split l) as [|a [|b [|c [|d t]]]]; simpl in H;
      try (eexists; reflexivity).
    now apply IH.
Qed.

Lemma get_stacks_loop_raises (ls : list string) (acc : list StackResponse.t)
    (e : exn) :
  get_stacks_loop ls acc = Raise e -> exists msg, e = ValueError msg.
Proof.
  revert acc. induction ls as [|l ls IH]; intros acc; [discriminate|].
  cbn [get_stacks_loop]. destruct (is_empty l); [apply IH|].
  destruct (split l) as [|a [|b [|c [|d t]]]];
    try (intros [= <-]; eexists; reflexivity).
  apply IH.
Qed.

Lemma records_match (ls : list string) :
  forallb well_formed_line ls = true ->
  Forall2 matches_line (filter (fun l => negb (is_empty l)) ls) (records ls).
Proof.
  induction ls as [|l ls IH]; intros H.
  - constructor.
  - cbn [forallb] in H. apply andb_true_iff in H as [Hl Hls].
    rewrite records_cons. cbn [filter].
    unfold well_formed_line in Hl.
    destruct l as [|x l]; [simpl; now apply IH|].
    cbn [is_empty orb negb] in Hl |- *.
    destruct (split (String x l)) as [|a [|b [|c [|d t]]]] eqn:Es;
      try discriminate.
    simpl. constructor; [|now apply IH].
    unfold matches_line. now rewrite Es.
Qed.

Lemma fields_of_lines_malformed (ls : list string) :
  existsb wrong_field_count (fields_of_lines ls) = true ->
  existsb malformed_line ls = true.
Proof.
  induction ls as [|l ls IH]; [discriminate|].
  unfold fields_of_lines in *. rewrite per_line_cons, existsb_app.
  cbn [existsb]. intros H. apply orb_true_iff in H as [H|H].
  - apply orb_true_iff. left. unfold malformed_line.
    destruct l as [|x l]; [discriminate|].
    destruct (split (String x l)) as [|a t]; [discriminate|].
    simpl in H. now rewrite orb_false_r in H.
  - apply orb_true_iff. right. now apply IH.
Qed.

(** ** The search for [stack_(\d+)] *)

Lemma strip_prefix_some (p s r : string) :
  strip_prefix p s = Some r -> s = p ++ r.
Proof.
  revert s. induction p as [|a p IH]; intros s H; simpl in *.
  - now injection H.
  - destruct s as [|b s]; [discriminate|].
    destruct (Ascii.eqb_spec a b) as [->|]; [|discriminate].
    now rewrite (IH s H).
Qed.

Lemma strip_prefix_append (p r : string) : strip_prefix p (p ++ r) = Some r.
Proof.
  induction p as [|a p IH]; simpl; [reflexivity|].
  now rewrite Ascii.eqb_refl.
Qed.

Lemma take_digits_split (s : string) :
  exists rest,
    s = take_digits s ++ rest /\
    all_digits (take_digits s) = true /\ starts_with_digit rest = false.
Proof.
  induction s as [|c s (rest & E & Hd & Hr)]; simpl.
  - now exists "".
  - destruct (isdigit c) eqn:Hc.
    + exists rest. simpl. rewrite Hc, Hd, <- E. auto.
    + exists (String c s). simpl. auto.
Qed.

Lemma take_digits_all (ds rest : string) :
  all_digits ds = true -> starts_with_digit rest = false ->
  take_digits (ds ++ rest) = ds.
Proof.
  intros Hd Hr. induction ds as [|c ds IH].
  - destruct rest as [|c r]; [reflexivity|]. simpl in *. now rewrite Hr.
  - cbn [all_digits] in Hd. apply andb_true_iff in Hd as [Hc Hd].
    simpl. now rewrite Hc, IH.
Qed.

Lemma match_here_some (s ds : string) :
  match_here s = Some ds ->
  exists rest,
    s = "stack_" ++ ds ++ rest /\ is_empty ds = false /\
    all_digits ds = true /\ starts_with_digit rest = false.
Proof.
  unfold match_here. intros H.
  destruct (strip_prefix "stack_" s) as [r|] eqn:Ep; [|discriminate].
  apply strip_prefix_some in Ep. subst s.
  destruct (is_empty (take_digits r)) eqn:Ee; [discriminate|].
  injection H as <-.
  destruct (take_digits_split r) as (rest & E & Hd & Hr).
  exists rest. now rewrite <- E.
Qed.

Lemma match_here_match (ds rest : string) :
  is_empty ds = false -> all_digits ds = true -> starts_with_digit rest = false ->
  match_here ("stack_" ++ ds ++ rest) = Some ds.
Proof.
  intros He Hd Hr. unfold match_here.
  rewrite strip_prefix_append, (take_digits_all ds rest Hd Hr).
  now rewrite He.
Qed.

Lemma match_here_digit (d : ascii) (rest : string) :
  isdigit d = true ->
  match_here ("stack_" ++ String d rest) = Some (String d (take_digits rest)).
Proof.
  intros Hd. unfold match_here. rewrite strip_prefix_append.
  simpl. now rewrite Hd.
Qed.

Lemma re_search_eq (s : string) :
  re_search s =
  match match_here s with
  | Some ds => Some ds
  | None => match s with
            | EmptyString => None
            | String _ s' => re_search s'
            end
  end.
Proof. destruct s; reflexivity. Qed.

Lemma re_search_leftmost (pre s : string) :
  no_match_within pre s = true -> re_search (pre ++ s) = re_search s.
Proof.
  induction pre as [|c pre IH]; intros H; [reflexivity|].
  cbn [no_match_within] in H. rewrite re_search_eq.
  destruct (match_here (String c pre ++ s)); [discriminate|].
  simpl. now apply IH.
Qed.

Lemma re_search_some (s ds : string) :
  re_search s = Some ds ->
  exists pre rest,
    s = pre ++ "stack_" ++ ds ++ rest /\ is_empty ds = false /\
    all_digits ds = true /\ starts_with_digit rest = false /\
    no_match_within pre ("stack_" ++ ds ++ rest) = true.
Proof.
  induction s as [|c s IH]; rewrite re_search_eq; intros H.
  - destruct (match_here "") eqn:E; discriminate.
  - destruct (match_here (String c s)) as [ds'|] eqn:E.
    + injection H as ->. apply match_here_some in E as (rest & E & H1 & H2 & H3).
      exists "", rest. now rewrite E.
    + destruct (IH H) as (pre & rest & Es & H1 & H2 & H3 & H4).
      exists (String c pre), rest. subst s.
      repeat split; auto. cbn [no_match_within].
      change (String c pre ++ "stack_" ++ ds ++ rest)
        with (String c (pre ++ "stack_" ++ ds ++ rest)).
      now rewrite E.
Qed.

Lemma re_search_contains (s : string) :
  contains_stack_id s -> exists ds, re_search s = Some ds.
Proof.
  intros (pre & d & rest & -> & Hd).
  induction pre as [|c pre (ds & IH)]; rewrite re_search_eq.
  - change ("" ++ "stack_" ++ String d rest) with ("stack_" ++ String d rest).
    rewrite (match_here_digit d rest Hd). eauto.
  - destruct (match_here (String c pre ++ "stack_" ++ String d rest));
      [eauto|]. simpl. eauto.
Qed.

Lemma re_search_none (s : string) :
  ~ contains_stack_id s -> re_search s = None.
Proof.
  intros H. destruct (re_search s) as [ds|] eqn:E; [|reflexivity].
  exfalso. apply H.
  apply re_search_some in E as (pre & rest & -> & He & Hd & _).
  destruct ds as [|d ds]; [discriminate|].
  simpl in Hd. apply andb_true_iff in Hd as [Hd _].
  now exists pre, d, (ds ++ rest).
Qed.

(** ** What is fed to the provisioner *)

Lemma read_lines_line (v rest cur : string) :
  no_newline v = true ->
  read_lines cur (v ++ nl ++ rest) = (cur ++ v) :: read_lines "" rest.
Proof.
  revert cur. induction v as [|c v IH]; intros cur H.
  - simpl. now rewrite append_nil_r.
  - cbn [no_newline] in H. apply andb_true_iff in H as [Hc Hv].
    apply negb_true_iff in Hc. simpl. rewrite Hc.
    rewrite (IH _ Hv), append_assoc. reflexivity.
Qed.

Lemma stdin_lines_answers (stack : Stack.t) :
  no_newline (Stack.phoenixd_domain stack) = true ->
  no_newline (Stack.lnbits_domain stack) = true ->
  no_newline (if Stack.use_real_certs stack
              then format_optional (Stack.email stack) else "") = true ->
  stdin_lines (answers stack) =
  [Stack.phoenixd_domain stack;
   Stack.lnbits_domain stack;
   if Stack.use_real_certs stack then "y" else "n";
   if Stack.use_real_certs stack then format_optional (Stack.email stack) else "";
   if Stack.use_postgres stack then "y" else "n";
   "y"].
Proof.
  intros H1 H2 H4. unfold stdin_lines, answers.
  rewrite ?append_assoc.
  rewrite (read_lines_line _ _ "" H1).
  rewrite (read_lines_line _ _ "" H2).
  rewrite (read_lines_line (if Stack.use_real_certs stack then "y" else "n"))
    by now destruct (Stack.use_real_certs stack).
  rewrite (read_lines_line _ _ "" H4).
  rewrite (read_lines_line (if Stack.use_postgres stack then "y" else "n"))
    by now destruct (Stack.use_postgres stack).
  reflexivity.
Qed.

(** ** Rendering of exceptions *)

Lemma wrapped_differs (e : exn) :
  HTTPException HTTP_500_INTERNAL_SERVER_ERROR (str_exn e) None <> e.
Proof.
  destruct e as [code detail headers| | | |]; try discriminate.
  intros H. injection H as _ Hd _. simpl in Hd.
  apply (f_equal String.length) in Hd.
  rewrite !length_append in Hd. simpl in Hd. lia.
Qed.

Lemma try_except_Exception {A : Type} (body : result A) (e : exn) :
  body = Raise e ->
  try_except body except_Exception =
  Raise (HTTPException HTTP_500_INTERNAL_SERVER_ERROR (str_exn e) None).
Proof. now intros ->. Qed.

(** ** The bodies of the handlers, case by case *)

Lemma add_stack_body_start_failure (stack : Stack.t) (init_sh : provisioner)
    (errno : Z) (strerror : string) :
  init_sh "add" (Some (answers stack)) = StartFailure errno strerror ->
  add_stack_body stack init_sh = Raise (OSError errno strerror INIT_SCRIPT).
Proof. intros H. unfold add_stack_body, popen_communicate. now rewrite H. Qed.

Lemma add_stack_body_nonzero (stack : Stack.t) (init_sh : provisioner)
    (rc : Z) (out err : string) :
  init_sh "add" (Some (answers stack)) = Exited rc out err -> rc <> 0 ->
  add_stack_body stack init_sh =
  Raise (HTTPException HTTP_500_INTERNAL_SERVER_ERROR
           ("Failed to add stack: " ++ err) None).
Proof.
  intros H Hrc. unfold add_stack_body, popen_communicate. rewrite H.
  apply Z.eqb_neq in Hrc. simpl. now rewrite Hrc.
Qed.

Lemma add_stack_body_zero (stack : Stack.t) (init_sh : provisioner)
    (out err : string) :
  init_sh "add" (Some (answers stack)) = Exited 0 out err ->
  add_stack_body stack init_sh =
  match re_search out with
  | None =>
      Raise (HTTPException HTTP_500_INTERNAL_SERVER_ERROR
               "Failed to extract stack ID from output" None)
  | Some stack_id =>
      Return (StackResponse.mk stack_id (Stack.phoenixd_domain stack)
                (Stack.lnbits_domain stack))
  end.
Proof. intros H. unfold add_stack_body, popen_communicate. now rewrite H. Qed.

Lemma remove_stack_body_start_failure (stack_id : string) (init_sh : provisioner)
    (errno : Z) (strerror : string) :
  init_sh "del" (Some (del_answers stack_id)) = StartFailure errno strerror ->
  remove_stack_body stack_id init_sh = Raise (OSError errno strerror INIT_SCRIPT).
Proof. intros H. unfold remove_stack_body, popen_communicate. now rewrite H. Qed.

Lemma remove_stack_body_nonzero (stack_id : string) (init_sh : provisioner)
    (rc : Z) (out err : string) :
  init_sh "del" (Some (del_answers stack_id)) = Exited rc out err -> rc <> 0 ->
  remove_stack_body stack_id init_sh =
  Raise (HTTPException HTTP_500_INTERNAL_SERVER_ERROR
           ("Failed to remove stack: " ++ err) None).
Proof.
  intros H Hrc. unfold remove_stack_body, popen_communicate. rewrite H.
  apply Z.eqb_neq in Hrc. simpl. now rewrite Hrc.
Qed.

Lemma get_stacks_start_failure (init_sh : provisioner)
    (errno : Z) (strerror : string) :
  init_sh "list" None = StartFailure errno strerror ->
  get_stacks init_sh = Raise (OSError errno strerror INIT_SCRIPT).
Proof. intros H. unfold get_stacks, subprocess_run. now rewrite H. Qed.

Lemma get_stacks_nonzero (init_sh : provisioner) (rc : Z) (out err : string) :
  init_sh "list" None = Exited rc out err -> rc <> 0 ->
  get_stacks init_sh =
  Raise (HTTPException HTTP_500_INTERNAL_SERVER_ERROR
           ("Failed to list stacks: " ++ err) None).
Proof.
  intros H Hrc. unfold get_stacks, subprocess_run. rewrite H.
  apply Z.eqb_neq in Hrc. now rewrite Hrc.
Qed.

Lemma get_stacks_zero (init_sh : provisioner) (out err : string) :
  init_sh "list" None = Exited 0 out err ->
  get_stacks init_sh = get_stacks_loop (split_nl (strip out)) [].
Proof.
  intros H. unfold get_stacks, subprocess_run. rewrite H. simpl.
  destruct (get_stacks_loop (split_nl (strip out)) []) as [v|e] eqn:E;
    [reflexivity|].
  now destruct (get_stacks_loop_raises _ _ _ E) as (msg & ->).
Qed.

(** In [add_stack] and [remove_stack] both kinds of failure leave the
    handler as an [HTTPException] of status 500: they differ in the detail
    only. *)
Lemma add_stack_failures_same_status (stack : Stack.t)
    (init_sh1 init_sh2 : provisioner) (errno rc : Z) (strerror out err : string) :
  init_sh1 "add" (Some (answers stack)) = StartFailure errno strerror ->
  init_sh2 "add" (Some (answers stack)) = Exited rc out err -> rc <> 0 ->
  exists d1 d2,
    add_stack stack init_sh1 = Raise (HTTPException 500 d1 None) /\
    add_stack stack init_sh2 = Raise (HTTPException 500 d2 None).
Proof.
  intros H1 H2 Hrc. unfold add_stack.
  rewrite (add_stack_body_start_failure _ _ _ _ H1).
  rewrite (add_stack_body_nonzero _ _ _ _ _ H2 Hrc).
  simpl. eauto.
Qed.

(** ** The claims *)

(** C1.  When the provisioner run by [add_stack] exits with code 0: if its
    output is [pre ++ "stack_" ++ ds ++ rest] with [ds] a non-empty run of
    digits that [rest] does not continue and no earlier match, the handler
    returns the record whose id is [ds] and whose domains are those of the
    request; whenever the output has a substring [stack_<digits>] at all,
    the handler returns a record whose id is the digits of such a
    substring; and when it has none, the handler fails with the error of
    status 500 that says the id could not be extracted. *)
Theorem add_stack_extracts_id (stack : Stack.t) (init_sh : provisioner)
    (out err : string) :
  init_sh "add" (Some (answers stack)) = Exited 0 out err ->
  (forall pre ds rest,
      out = pre ++ "stack_" ++ ds ++ rest ->
      is_empty ds = false -> all_digits ds = true ->
      starts_with_digit rest = false ->
      no_match_within pre ("stack_" ++ ds ++ rest) = true ->
      add_stack stack init_sh =
      Return (StackResponse.mk ds (Stack.phoenixd_domain stack)
                (Stack.lnbits_domain stack))) /\
  (contains_stack_id out ->
   exists pre ds rest,
     out = pre ++ "stack_" ++ ds ++ rest /\
     is_empty ds = false /\ all_digits ds = true /\
     add_stack stack init_sh =
     Return (StackResponse.mk ds (Stack.phoenixd_domain stack)
               (Stack.lnbits_domain stack))) /\
  (~ contains_stack_id out ->
   add_stack stack init_sh =
   Raise (HTTPException HTTP_500_INTERNAL_SERVER_ERROR
            "500: Failed to extract stack ID from output" None)).
Proof.
  intros H. unfold add_stack. rewrite (add_stack_body_zero _ _ _ _ H).
  repeat split.
  - intros pre ds rest -> He Hd Hr Hl.
    rewrite (re_search_leftmost _ _ Hl), re_search_eq.
    now rewrite (match_here_match ds rest He Hd Hr).
  - intros Hc. destruct (re_search_contains out Hc) as (ds & E).
    destruct (re_search_some out ds E) as (pre & rest & Eo & He & Hd & _).
    exists pre, ds, rest. now rewrite E.
  - intros Hc. now rewrite (re_search_none out Hc).
Qed.

(** C2.  When the provisioner exits with a code other than 0, each of
    [get_stacks], [add_stack] and [remove_stack] fails with an
    [HTTPException] of status 500 whose detail ends with the captured
    standard error, character for character, after a fixed prefix that
    names the operation. *)
Theorem nonzero_exit_carries_stderr (init_sh : provisioner) (stack : Stack.t)
    (stack_id : string) (rc : Z) (out err : string) :
  rc <> 0 ->
  (init_sh "list" None = Exited rc out err ->
   get_stacks init_sh =
   Raise (HTTPException HTTP_500_INTERNAL_SERVER_ERROR
            ("Failed to list stacks: " ++ err) None)) /\
  (init_sh "add" (Some (answers stack)) = Exited rc out err ->
   add_stack stack init_sh =
   Raise (HTTPException HTTP_500_INTERNAL_SERVER_ERROR
            ("500: Failed to add stack: " ++ err) None)) /\
  (init_sh "del" (Some (del_answers stack_id)) = Exited rc out err ->
   remove_stack stack_id init_sh =
   Raise (HTTPException HTTP_500_INTERNAL_SERVER_ERROR
            ("500: Failed to remove stack: " ++ err) None)).
Proof.
  intros Hrc. repeat split; intros H.
  - now apply get_stacks_nonzero with (rc := rc) (out := out).
  - unfold add_stack. now rewrite (add_stack_body_nonzero _ _ _ _ _ H Hrc).
  - unfold remove_stack. now rewrite (remove_stack_body_nonzero _ _ _ _ _ H Hrc).
Qed.

(** C3.  When the provisioner exits with code 0 and every line of its
    output is empty or has exactly three white-space separated fields,
    [get_stacks] returns one record per non-empty line, in the order of the
    lines, and the id, payment domain and wallet domain of each record are
    the three fields of its line. *)
Theorem get_stacks_well_formed_listing (init_sh : provisioner) (out err : string) :
  init_sh "list" None = Exited 0 out err ->
  forallb well_formed_line (split_nl out) = true ->
  exists stacks,
    get_stacks init_sh = Return stacks /\
    length stacks =
      length (filter (fun line => negb (is_empty line)) (split_nl out)) /\
    Forall2 matches_line
      (filter (fun line => negb (is_empty line)) (split_nl out)) stacks.
Proof.
  intros H Hwf. exists (records (split_nl out)).
  pose proof (records_match _ Hwf) as Hm.
  repeat split.
  - rewrite (get_stacks_zero _ _ _ H).
    rewrite (get_stacks_loop_well_formed _ _ (well_formed_strip _ Hwf)).
    now rewrite records_strip.
  - symmetry. eapply Forall2_length, Hm.
  - exact Hm.
Qed.

(** C4, amended.  For a request whose two domains and whose fourth answer
    have no line feed, the text fed to [init.sh add] is exactly six lines:
    payment domain, wallet domain, [y] or [n] for real certificates, the
    contact email as the f-string renders it when real certificates are
    asked for and nothing otherwise, [y] or [n] for the external database,
    and [y]; line 4 is empty whenever [use_real_certs] is false, whatever
    the email. *)
Theorem answers_six_lines (stack : Stack.t) :
  no_newline (Stack.phoenixd_domain stack) = true ->
  no_newline (Stack.lnbits_domain stack) = true ->
  no_newline (if Stack.use_real_certs stack
              then format_optional (Stack.email stack) else "") = true ->
  stdin_lines (answers stack) =
    [Stack.phoenixd_domain stack;
     Stack.lnbits_domain stack;
     if Stack.use_real_certs stack then "y" else "n";
     if Stack.use_real_certs stack then format_optional (Stack.email stack) else "";
     if Stack.use_postgres stack then "y" else "n";
     "y"] /\
  length (stdin_lines (answers stack)) = 6%nat /\
  (Stack.use_real_certs stack = false ->
   stdin_line 4 (answers stack) = Some "").
Proof.
  intros H1 H2 H4. pose proof (stdin_lines_answers stack H1 H2 H4) as E.
  unfold stdin_line. rewrite E. repeat split.
  intros Hc. now rewrite Hc.
Qed.

Lemma get_stacks_undecodable (init_sh : provisioner) (msg : string) :
  init_sh "list" None = Undecodable msg ->
  get_stacks init_sh = Raise (UnicodeDecodeError msg).
Proof. intros H. unfold get_stacks, subprocess_run. now rewrite H. Qed.

Lemma add_stack_body_undecodable (stack : Stack.t) (init_sh : provisioner)
    (msg : string) :
  init_sh "add" (Some (answers stack)) = Undecodable msg ->
  add_stack_body stack init_sh = Raise (UnicodeDecodeError msg).
Proof. intros H. unfold add_stack_body, popen_communicate. now rewrite H. Qed.


(** C5.  For each of the three operations, a provisioner that cannot be
    started makes the handler fail with an error that carries the [errno],
    its text and the path of the script: for [get_stacks] the [OSError]
    itself leaves the handler, for [add_stack] and [remove_stack] an
    [HTTPException] of status 500 whose detail is [str] of that [OSError].
    A provisioner that runs and exits with a code other than 0 makes the
    handler fail with the [HTTPException] of status 500 that carries the
    standard error, and the two failures are never equal. *)
Theorem start_failure_distinguishable (init_sh1 init_sh2 : provisioner)
    (stack : Stack.t) (stack_id : string)
    (errno : Z) (strerror : string) (rc : Z) (out err : string) :
  rc <> 0 ->
  (init_sh1 "list" None = StartFailure errno strerror ->
   init_sh2 "list" None = Exited rc out err ->
   get_stacks init_sh1 = Raise (OSError errno strerror INIT_SCRIPT) /\
   get_stacks init_sh2 =
     Raise (HTTPException HTTP_500_INTERNAL_SERVER_ERROR
              ("Failed to list stacks: " ++ err) None) /\
   get_stacks init_sh1 <> get_stacks init_sh2) /\
  (init_sh1 "add" (Some (answers stack)) = StartFailure errno strerror ->
   init_sh2 "add" (Some (answers stack)) = Exited rc out err ->
   add_stack stack init_sh1 =
     Raise (HTTPException HTTP_500_INTERNAL_SERVER_ERROR
              ("[Errno " ++ str_int errno ++ "] " ++ strerror ++ ": "
                 ++ repr_str INIT_SCRIPT) None) /\
   add_stack stack init_sh2 =
     Raise (HTTPException HTTP_500_INTERNAL_SERVER_ERROR
              ("500: Failed to add stack: " ++ err) None) /\
   add_stack stack init_sh1 <> add_stack stack init_sh2) /\
  (init_sh1 "del" (Some (del_answers stack_id)) = StartFailure errno strerror ->
   init_sh2 "del" (Some (del_answers stack_id)) = Exited rc out err ->
   remove_stack stack_id init_sh1 =
     Raise (HTTPException HTTP_500_INTERNAL_SERVER_ERROR
              ("[Errno " ++ str_int errno ++ "] " ++ strerror ++ ": "
                 ++ repr_str INIT_SCRIPT) None) /\
   remove_stack stack_id init_sh2 =
     Raise (HTTPException HTTP_500_INTERNAL_SERVER_ERROR
              ("500: Failed to remove stack: " ++ err) None) /\
   remove_stack stack_id init_sh1 <> remove_stack stack_id init_sh2).
Proof.
  intros Hrc. repeat apply conj; intros H1 H2.
  - rewrite (get_stacks_start_failure _ _ _ H1).
    rewrite (get_stacks_nonzero _ _ _ _ H2 Hrc).
    repeat split. discriminate.
  - unfold add_stack.
    rewrite (add_stack_body_start_failure _ _ _ _ H1).
    rewrite (add_stack_body_nonzero _ _ _ _ _ H2 Hrc).
    repeat split. simpl. discriminate.
  - unfold remove_stack.
    rewrite (remove_stack_body_start_failure _ _ _ _ H1).
    rewrite (remove_stack_body_nonzero _ _ _ _ _ H2 Hrc).
    repeat split. simpl. discriminate.
Qed.


(** The same holds for a line of the output as the provisioner wrote it,
    when the line has at least one field and not three. *)
Lemma get_stacks_wrong_field_count (init_sh : provisioner) (out err : string) :
  init_sh "list" None = Exited 0 out err ->
  existsb wrong_field_count (fields_of_lines (split_nl out)) = true ->
  exists msg, get_stacks init_sh = Raise (ValueError msg).
Proof.
  intros H Hbad. rewrite (get_stacks_zero _ _ _ H).
  apply get_stacks_loop_malformed, fields_of_lines_malformed.
  now rewrite fields_of_lines_strip.
Qed.

(** C7.  Whatever makes [get_current_user] reject a token, the exception
    is the same one: status 401, detail [Could not validate credentials],
    header [WWW-Authenticate: Bearer]. *)
Theorem get_current_user_rejects_uniformly (now1 now2 : Z) (tok1 tok2 : token)
    (e1 e2 : exn) :
  get_current_user now1 tok1 = Raise e1 ->
  get_current_user now2 tok2 = Raise e2 ->
  e1 = e2 /\
  e1 = HTTPException 401 "Could not validate credentials"
         (Some [("WWW-Authenticate", "Bearer")]).
Proof.
  assert (Hone : forall now tok e,
             get_current_user now tok = Raise e -> e = credentials_exception).
  { intros now tok e. unfold get_current_user.
    destruct (jwt_decode now tok SECRET_KEY [ALGORITHM]) as [err|p]; simpl.
    - now intros [= <-].
    - destruct (sub p) as [u|]; simpl; [|now intros [= <-]].
      destruct (get_user u); [discriminate | now intros [= <-]]. }
  intros H1 H2. apply Hone in H1, H2. now subst.
Qed.

(** The reasons one by one: a token that [jwt.decode] refuses (malformed,
    badly signed or expired), a token without subject, and a subject that
    is not in the user store. *)
Lemma get_current_user_reasons (now : Z) (tok : token) :
  (forall err, jwt_decode now tok SECRET_KEY [ALGORITHM] = inl err ->
     get_current_user now tok = Raise credentials_exception) /\
  (forall p, jwt_decode now tok SECRET_KEY [ALGORITHM] = inr p ->
     sub p = None ->
     get_current_user now tok = Raise credentials_exception) /\
  (forall p u, jwt_decode now tok SECRET_KEY [ALGORITHM] = inr p ->
     sub p = Some u -> get_user u = None ->
     get_current_user now tok = Raise credentials_exception).
Proof.
  unfold get_current_user. repeat split.
  - now intros err ->.
  - now intros p -> ->.
  - intros p u -> ->. simpl. now intros ->.
Qed.

Lemma authenticate_user_get_user (u p : string) (user : UserInDB) :
  authenticate_user u p = Some user -> get_user (username user) = Some user.
Proof.
  unfold authenticate_user, get_user, USERS_DB. cbn [dict_get].
  destruct (String.eqb_spec "admin" u) as [<-|]; [|discriminate].
  destruct (negb (verify_password p "admin")); [discriminate|].
  intros [= <-]. cbn [username]. now rewrite String.eqb_refl.
Qed.

(** C8.  With a [jwt] library that gives back the claims it signed until
    their [exp], a login with a user name and password of the store
    returns a bearer token whose [exp] is the clock at the login plus 30
    minutes; [get_current_user] accepts that token at every time before
    that [exp], and rejects it at that [exp] and at every later time. *)
Theorem login_token_expires_after_30_minutes (now : Z) (u p : string)
    (user : UserInDB) :
  jwt_sound jwt_encode jwt_decode ->
  authenticate_user u p = Some user ->
  exists tok,
    login_for_access_token now u p = Return (Token.mk tok "bearer") /\
    tok = jwt_encode (mkPayload (Some (username user)) (Some (now + 30 * 60)))
            SECRET_KEY ALGORITHM /\
    (forall t, t < now + 30 * 60 -> get_current_user t tok = Return user) /\
    (forall t, now + 30 * 60 <= t ->
       get_current_user t tok = Raise credentials_exception).
Proof.
  intros Hjwt Hauth. eexists. split; [|split; [reflexivity|]].
  - unfold login_for_access_token. rewrite Hauth. reflexivity.
  - pose proof (authenticate_user_get_user u p user Hauth) as Hu.
    split; intros t Ht; unfold get_current_user; rewrite Hjwt; simpl.
    + destruct (Z.leb_spec (now + 1800) t); [lia|]. simpl. now rewrite Hu.
    + destruct (Z.leb_spec (now + 1800) t); [|lia]. reflexivity.
Qed.

(** C9, amended.  For a request that asks for real certificates, gives no
    contact email and whose two domains have no line feed, line 4 of the
    text fed to [init.sh add] is the four characters [None]. *)
Theorem answers_line4_None (stack : Stack.t) :
  Stack.use_real_certs stack = true ->
  Stack.email stack = None ->
  no_newline (Stack.phoenixd_domain stack) = true ->
  no_newline (Stack.lnbits_domain stack) = true ->
  stdin_line 4 (answers stack) = Some "None".
Proof.
  intros Hc He H1 H2. unfold stdin_line.
  rewrite (stdin_lines_answers stack H1 H2); now rewrite Hc, He.
Qed.

(** C10.  In [add_stack] and in [remove_stack], every exception raised in
    the [try] block is replaced by a new [HTTPException] of status 500
    whose detail is [str] of the exception caught, and that new exception
    is never equal to the one caught. *)
Theorem catch_all_wraps_failures (stack : Stack.t) (stack_id : string)
    (init_sh : provisioner) :
  (forall e, add_stack_body stack init_sh = Raise e ->
     add_stack stack init_sh =
       Raise (HTTPException HTTP_500_INTERNAL_SERVER_ERROR (str_exn e) None) /\
     HTTPException HTTP_500_INTERNAL_SERVER_ERROR (str_exn e) None <> e) /\
  (forall e, remove_stack_body stack_id init_sh = Raise e ->
     remove_stack stack_id init_sh =
       Raise (HTTPException HTTP_500_INTERNAL_SERVER_ERROR (str_exn e) None) /\
     HTTPException HTTP_500_INTERNAL_SERVER_ERROR (str_exn e) None <> e).
Proof.
  split; intros e H; (split; [|apply wrapped_differs]).
  - unfold add_stack. now apply try_except_Exception.
  - unfold remove_stack. now apply try_except_Exception.
Qed.

(** ** More facts about the string primitives *)

Lemma all_space_append (a b : string) :
  all_space (a ++ b) = all_space a && all_space b.
Proof.
  induction a as [|c a IH]; simpl; [reflexivity|].
  now rewrite IH, andb_assoc.
Qed.

Lemma rstrip_all_space (s : string) : all_space s = true -> rstrip s = "".
Proof.
  intros H. apply is_empty_true. now rewrite rstrip_is_empty.
Qed.

Lemma lstrip_pad (a s : string) :
  all_space a = true -> lstrip (a ++ s) = lstrip s.
Proof.
  induction a as [|c a IH]; intros H; [reflexivity|].
  cbn [all_space] in H. apply andb_true_iff in H as [Hc Ha].
  simpl. rewrite Hc. now apply IH.
Qed.

Lemma rstrip_pad (s b : string) :
  all_space b = true -> rstrip (s ++ b) = rstrip s.
Proof.
  intros H. induction s as [|c s IH]; simpl.
  - now apply rstrip_all_space.
  - now rewrite IH.
Qed.

Lemma strip_lead (a s : string) :
  all_space a = true -> lstrip (rstrip (a ++ s)) = lstrip (rstrip s).
Proof.
  induction a as [|c a IH]; intros H; [reflexivity|].
  cbn [all_space] in H. apply andb_true_iff in H as [Hc Ha].
  specialize (IH Ha). cbn [append rstrip]. rewrite Hc, andb_true_r.
  destruct (is_empty (rstrip (a ++ s))) eqn:E.
  - rewrite <- IH, (is_empty_true _ E). reflexivity.
  - cbn [lstrip]. now rewrite Hc.
Qed.

Lemma strip_pad (a s b : string) :
  all_space a = true -> all_space b = true -> strip (a ++ s ++ b) = strip s.
Proof.
  intros Ha Hb. unfold strip.
  rewrite <- append_assoc, (rstrip_pad (a ++ s) b Hb).
  now apply strip_lead.
Qed.

Lemma has_space_append (a b : string) :
  has_space (a ++ b) = has_space a || has_space b.
Proof.
  induction a as [|c a IH]; simpl; [reflexivity|].
  now rewrite IH, orb_assoc.
Qed.

Lemma is_empty_append (a b : string) :
  is_empty (a ++ b) = is_empty a && is_empty b.
Proof. now destruct a. Qed.

Lemma split_from_fields (s cur : string) :
  has_space cur = false ->
  Forall (fun t => is_field t = true) (split_from cur s).
Proof.
  revert cur. induction s as [|c s IH]; intros cur Hcur; simpl.
  - destruct (is_empty cur) eqn:E; constructor; [|constructor].
    unfold is_field. now rewrite E, Hcur.
  - destruct (isspace c) eqn:Hc.
    + destruct (is_empty cur) eqn:E; [now apply IH|].
      constructor; [|now apply IH].
      unfold is_field. now rewrite E, Hcur.
    + apply IH. rewrite has_space_append, Hcur. simpl. now rewrite Hc.
Qed.

Lemma records_fields (ls : list string) :
  Forall (fun r => record_of_fields_only r = true) (records ls).
Proof.
  induction ls as [|l ls IH]; [constructor|].
  rewrite records_cons. apply Forall_app. split; [|exact IH].
  pose proof (split_from_fields l "" eq_refl) as Hf. fold (split l) in Hf.
  destruct (split l) as [|a [|b [|c [|d t]]]]; simpl; try constructor;
    [|constructor].
  inversion Hf as [|? ? Ha Hf1]; subst.
  inversion Hf1 as [|? ? Hb Hf2]; subst.
  inversion Hf2 as [|? ? Hc _]; subst.
  unfold record_of_fields_only. simpl. now rewrite Ha, Hb, Hc.
Qed.

Lemma read_lines_length (v rest cur : string) :
  length (read_lines cur (v ++ nl ++ rest)) =
  (count_newlines v + S (length (read_lines "" rest)))%nat.
Proof.
  revert cur. induction v as [|c v IH]; intros cur; simpl.
  - reflexivity.
  - destruct (Ascii.eqb c newline); simpl; now rewrite IH.
Qed.

(** ** More facts about the loop of [get_stacks] *)

Lemma malformed_not_well_formed (l : string) :
  malformed_line l = negb (well_formed_line l).
Proof.
  unfold malformed_line, well_formed_line.
  now destruct (is_empty l), (length (split l) =? 3)%nat.
Qed.

Lemma no_malformed_well_formed (ls : list string) :
  existsb malformed_line ls = false -> forallb well_formed_line ls = true.
Proof.
  induction ls as [|l ls IH]; [reflexivity|].
  cbn [existsb forallb]. rewrite malformed_not_well_formed.
  intros H. apply orb_false_iff in H as [Hl Hls].
  apply negb_false_iff in Hl. now rewrite Hl, IH.
Qed.

Lemma get_stacks_loop_return (ls : list string) (acc r : list StackResponse.t) :
  get_stacks_loop ls acc = Return r ->
  existsb malformed_line ls = false /\ r = (acc ++ records ls)%list.
Proof.
  intros H. destruct (existsb malformed_line ls) eqn:E.
  - destruct (get_stacks_loop_malformed ls acc E) as (msg & Hm).
    rewrite Hm in H. discriminate.
  - split; [reflexivity|].
    rewrite (get_stacks_loop_well_formed ls acc (no_malformed_well_formed ls E)) in H.
    now injection H.
Qed.

Lemma get_current_user_raises (now : Z) (tok : token) (e : exn) :
  get_current_user now tok = Raise e -> e = credentials_exception.
Proof.
  unfold get_current_user.
  destruct (jwt_decode now tok SECRET_KEY [ALGORITHM]) as [err|p]; simpl.
  - now intros [= <-].
  - destruct (sub p) as [u|]; simpl; [|now intros [= <-]].
    destruct (get_user u); [discriminate | now intros [= <-]].
Qed.

(** ** Further properties of the handlers *)

(** X1.  [authenticate_user] returns a user exactly when the user name is a
    key of the store, the user returned is the one stored under it, and
    the password given equals the stored one, character for character. *)
Theorem authenticate_user_iff (u p : string) (user : UserInDB) :
  authenticate_user u p = Some user <->
  dict_get USERS_DB u = Some user /\ password user = p.
Proof.
  unfold authenticate_user, get_user, verify_password.
  destruct (dict_get USERS_DB u) as [stored|]; [|split; [discriminate|]].
  - destruct (String.eqb_spec p (password stored)) as [->|Hne]; simpl; split.
    + now intros [= <-].
    + now intros [[= <-] _].
    + discriminate.
    + intros [[= <-] Hp]. now symmetry in Hp.
  - now intros [? _].
Qed.

(** X2.  Whatever makes [login_for_access_token] fail, an unknown user
    name or a wrong password, the exception is the same one: status 401,
    detail [Incorrect username or password], header
    [WWW-Authenticate: Bearer]. *)
Theorem login_rejects_uniformly (now1 now2 : Z) (u1 p1 u2 p2 : string)
    (e1 e2 : exn) :
  login_for_access_token now1 u1 p1 = Raise e1 ->
  login_for_access_token now2 u2 p2 = Raise e2 ->
  e1 = e2 /\
  e1 = HTTPException 401 "Incorrect username or password"
         (Some [("WWW-Authenticate", "Bearer")]).
Proof.
  unfold login_for_access_token. intros H1 H2.
  destruct (authenticate_user u1 p1); [discriminate|].
  destruct (authenticate_user u2 p2); [discriminate|].
  injection H1 as <-. injection H2 as <-. now split.
Qed.

(** X3.  With a [jwt] library that gives back the claims it signed until
    their [exp], decoding what [create_access_token] made gives the subject
    it was given and an [exp] of the clock plus the window, until that
    [exp]; the window is 15 minutes when no [expires_delta] is given and
    also when it is zero. *)
Theorem create_access_token_round_trip (now t : Z) (data : payload)
    (expires_delta : option Z) :
  jwt_sound jwt_encode jwt_decode ->
  (expires_delta = None \/ expires_delta = Some 0 ->
   jwt_decode t (create_access_token now data expires_delta)
     SECRET_KEY [ALGORITHM] =
   if now + 15 * 60 <=? t then inl ExpiredSignatureError
   else inr (mkPayload (sub data) (Some (now + 15 * 60)))) /\
  (forall d, expires_delta = Some d -> d <> 0 ->
   jwt_decode t (create_access_token now data expires_delta)
     SECRET_KEY [ALGORITHM] =
   if now + d <=? t then inl ExpiredSignatureError
   else inr (mkPayload (sub data) (Some (now + d)))).
Proof.
  intros Hjwt. unfold create_access_token. split.
  - intros [-> | ->]; now rewrite Hjwt.
  - intros d -> Hd. apply Z.eqb_neq in Hd. now rewrite Hd, Hjwt.
Qed.

(** X4.  [get_current_user] returns a user exactly when [jwt.decode]
    accepts the token, the claims have a subject, and the user returned is
    the one stored under that subject. *)
Theorem get_current_user_returns_iff (now : Z) (tok : token) (user : UserInDB) :
  get_current_user now tok = Return user <->
  exists p u,
    jwt_decode now tok SECRET_KEY [ALGORITHM] = inr p /\
    sub p = Some u /\ get_user u = Some user.
Proof.
  unfold get_current_user. split.
  - destruct (jwt_decode now tok SECRET_KEY [ALGORITHM]) as [err|p];
      [discriminate|].
    destruct (sub p) as [u|] eqn:Es; [|discriminate]. simpl.
    destruct (get_user u) as [stored|] eqn:Eu; [|discriminate].
    intros [= <-]. now exists p, u.
  - intros (p & u & -> & -> & Hu). simpl. now rewrite Hu.
Qed.

(** X5.  The only exception that leaves [add_stack] or [remove_stack] is
    an [HTTPException] of status 500 without headers. *)
Theorem add_and_remove_raise_only_500 (stack : Stack.t) (stack_id : string)
    (init_sh : provisioner) (e : exn) :
  add_stack stack init_sh = Raise e \/ remove_stack stack_id init_sh = Raise e ->
  exists detail, e = HTTPException 500 detail None.
Proof.
  unfold add_stack, remove_stack, try_except, except_Exception.
  intros [H|H].
  - destruct (add_stack_body stack init_sh); [discriminate|].
    injection H as <-. eauto.
  - destruct (remove_stack_body stack_id init_sh); [discriminate|].
    injection H as <-. eauto.
Qed.

(** X6.  An exception leaves [get_stacks] in four cases only: the
    provisioner could not be started and its [OSError] leaves uncaught;
    what it wrote could not be decoded and the [UnicodeDecodeError] leaves
    uncaught; it exited with a code other than 0 and an [HTTPException] of
    status 500 carries its standard error; or it exited with code 0 and
    the stripped output has a non-empty line without exactly three fields,
    and a [ValueError] leaves uncaught. *)
Theorem get_stacks_raises (init_sh : provisioner) (e : exn) :
  get_stacks init_sh = Raise e ->
  (exists errno strerror,
      init_sh "list" None = StartFailure errno strerror /\
      e = OSError errno strerror INIT_SCRIPT) \/
  (exists msg,
      init_sh "list" None = Undecodable msg /\
      e = UnicodeDecodeError msg) \/
  (exists rc out err,
      init_sh "list" None = Exited rc out err /\ rc <> 0 /\
      e = HTTPException 500 ("Failed to list stacks: " ++ err) None) \/
  (exists out err msg,
      init_sh "list" None = Exited 0 out err /\
      existsb malformed_line (split_nl (strip out)) = true /\
      e = ValueError msg).
Proof.
  intros H.
  destruct (init_sh "list" None) as [errno strerror|rc out err|dmsg] eqn:E.
  - left. rewrite (get_stacks_start_failure _ _ _ E) in H.
    injection H as <-. eauto.
  - right. right. destruct (Z.eq_dec rc 0) as [->|Hrc].
    + right. rewrite (get_stacks_zero _ _ _ E) in H.
      destruct (get_stacks_loop_raises _ _ _ H) as (msg & ->).
      exists out, err, msg. repeat split.
      destruct (existsb malformed_line (split_nl (strip out))) eqn:Em;
        [reflexivity|].
      rewrite (get_stacks_loop_well_formed _ _ (no_malformed_well_formed _ Em))
        in H.
      discriminate.
    + left. rewrite (get_stacks_nonzero _ _ _ _ E Hrc) in H.
      injection H as <-. exists rc, out, err. auto.
  - right. left. rewrite (get_stacks_undecodable _ _ E) in H.
    injection H as <-. eauto.
Qed.

(** X7.  When the provisioner exits with code 0 and its output is empty
    or white space only, [get_stacks] returns the empty directory. *)
Theorem get_stacks_blank_output (init_sh : provisioner) (out err : string) :
  init_sh "list" None = Exited 0 out err ->
  all_space out = true ->
  get_stacks init_sh = Return [].
Proof.
  intros H Hs. rewrite (get_stacks_zero _ _ _ H).
  unfold strip. now rewrite (rstrip_all_space out Hs).
Qed.

(** X8.  When the provisioner exits with code 0, [get_stacks] returns a
    directory exactly when the stripped output has no non-empty line
    without three fields, and the directory is then the records of the
    three-field lines of the output as written, in their order. *)
Theorem get_stacks_returns_iff (init_sh : provisioner) (out err : string)
    (stacks : list StackResponse.t) :
  init_sh "list" None = Exited 0 out err ->
  (get_stacks init_sh = Return stacks <->
   existsb malformed_line (split_nl (strip out)) = false /\
   stacks = records (split_nl out)).
Proof.
  intros H. rewrite (get_stacks_zero _ _ _ H). split.
  - intros Hr. apply get_stacks_loop_return in Hr as [Hm ->].
    split; [exact Hm|]. simpl. apply records_strip.
  - intros [Hm ->].
    rewrite (get_stacks_loop_well_formed _ _ (no_malformed_well_formed _ Hm)).
    simpl. now rewrite records_strip.
Qed.

(** X9.  Every record that [get_stacks] returns has an id, a payment
    domain and a wallet domain that are not empty and contain no white
    space. *)
Theorem get_stacks_fields (init_sh : provisioner)
    (stacks : list StackResponse.t) :
  get_stacks init_sh = Return stacks ->
  Forall (fun r => record_of_fields_only r = true) stacks.
Proof.
  intros H.
  destruct (init_sh "list" None) as [errno strerror|rc out err|dmsg] eqn:E.
  - rewrite (get_stacks_start_failure _ _ _ E) in H. discriminate.
  - destruct (Z.eq_dec rc 0) as [->|Hrc].
    + rewrite (get_stacks_zero _ _ _ E) in H.
      apply get_stacks_loop_return in H as [_ ->]. apply records_fields.
    + rewrite (get_stacks_nonzero _ _ _ _ E Hrc) in H. discriminate.
  - rewrite (get_stacks_undecodable _ _ E) in H. discriminate.
Qed.

(** X10.  White space, blank lines included, before and after the listing
    does not change what [get_stacks] answers. *)
Theorem get_stacks_padding (init_sh1 init_sh2 : provisioner)
    (a out b err1 err2 : string) :
  all_space a = true -> all_space b = true ->
  init_sh1 "list" None = Exited 0 out err1 ->
  init_sh2 "list" None = Exited 0 (a ++ out ++ b) err2 ->
  get_stacks init_sh2 = get_stacks init_sh1.
Proof.
  intros Ha Hb H1 H2.
  rewrite (get_stacks_zero _ _ _ H1), (get_stacks_zero _ _ _ H2).
  now rewrite (strip_pad a out b Ha Hb).
Qed.

(** X11.  [add_stack] returns a record only when the provisioner was
    started and exited with code 0; the id of the record is then a
    non-empty run of digits that follows [stack_] in the output, and the
    two domains are those of the request. *)
Theorem add_stack_returns (stack : Stack.t) (init_sh : provisioner)
    (r : StackResponse.t) :
  add_stack stack init_sh = Return r ->
  exists out err pre rest,
    init_sh "add" (Some (answers stack)) = Exited 0 out err /\
    out = pre ++ "stack_" ++ StackResponse.id r ++ rest /\
    is_empty (StackResponse.id r) = false /\
    all_digits (StackResponse.id r) = true /\
    StackResponse.phoenixd_domain r = Stack.phoenixd_domain stack /\
    StackResponse.lnbits_domain r = Stack.lnbits_domain stack.
Proof.
  intros H.
  destruct (init_sh "add" (Some (answers stack)))
    as [errno strerror|rc out err|dmsg] eqn:E; unfold add_stack in H.
  - rewrite (add_stack_body_start_failure _ _ _ _ E) in H. discriminate.
  - destruct (Z.eq_dec rc 0) as [->|Hrc].
    + rewrite (add_stack_body_zero _ _ _ _ E) in H.
      destruct (re_search out) as [ds|] eqn:Es; [|discriminate].
      injection H as <-.
      destruct (re_search_some out ds Es) as (pre & rest & -> & He & Hd & _).
      exists (pre ++ "stack_" ++ ds ++ rest), err, pre, rest.
      simpl. repeat split; assumption.
    + rewrite (add_stack_body_nonzero _ _ _ _ _ E Hrc) in H. discriminate.
  - rewrite (add_stack_body_undecodable _ _ _ E) in H. discriminate.
Qed.


(** X13.  The text that [add_stack] feeds to the provisioner has six
    lines and one more for every line feed in the payment domain, in the
    wallet domain and in the fourth answer. *)
Theorem answers_line_count (stack : Stack.t) :
  length (stdin_lines (answers stack)) =
  (6 + count_newlines (Stack.phoenixd_domain stack)
     + count_newlines (Stack.lnbits_domain stack)
     + count_newlines (if Stack.use_real_certs stack
                       then format_optional (Stack.email stack) else ""))%nat.
Proof.
  unfold stdin_lines, answers. rewrite !read_lines_length.
  destruct (Stack.use_real_certs stack), (Stack.use_postgres stack);
    simpl; lia.
Qed.

(** X14.  The text that [remove_stack] feeds to the provisioner is the
    two lines id and [y] when the id has no line feed, and in general has
    two lines and one more for every line feed in the id. *)
Theorem del_answers_lines (stack_id : string) :
  length (stdin_lines (del_answers stack_id)) =
    (2 + count_newlines stack_id)%nat /\
  (no_newline stack_id = true ->
   stdin_lines (del_answers stack_id) = [stack_id; "y"]).
Proof.
  unfold stdin_lines, del_answers. split.
  - rewrite read_lines_length. simpl. lia.
  - intros H. now rewrite (read_lines_line _ _ "" H).
Qed.

Lemma rejected_token_stops_request (now : Z) (tok : token) (e : exn)
    (stack : Stack.t) (stack_id : string) (init_sh : provisioner) :
  get_current_user now tok = Raise e ->
  GET_stacks now tok init_sh = Raise credentials_exception /\
  POST_stacks now tok stack init_sh = Raise credentials_exception /\
  DELETE_stacks now tok stack_id init_sh = Raise credentials_exception.
Proof.
  intros H. pose proof (get_current_user_raises _ _ _ H) as ->.
  unfold GET_stacks, POST_stacks, DELETE_stacks, Depends_get_current_user.
  now rewrite H.
Qed.

(** X15.  With a [jwt] library that gives back the claims it signed until
    their [exp]: a request that carries the token of a login is answered
    by its handler at every time before the login plus 30 minutes, and
    from then on every request with it is answered by the 401 of the gate,
    whatever the provisioner would do. *)
Theorem login_then_request (now : Z) (u p : string) (user : UserInDB)
    (stack : Stack.t) (stack_id : string) (init_sh : provisioner) :
  jwt_sound jwt_encode jwt_decode ->
  authenticate_user u p = Some user ->
  exists tok,
    login_for_access_token now u p = Return (Token.mk tok "bearer") /\
    (forall t, t < now + 30 * 60 ->
       GET_stacks t tok init_sh = get_stacks init_sh /\
       POST_stacks t tok stack init_sh = add_stack stack init_sh /\
       DELETE_stacks t tok stack_id init_sh = remove_stack stack_id init_sh) /\
    (forall t, now + 30 * 60 <= t ->
       GET_stacks t tok init_sh = Raise credentials_exception /\
       POST_stacks t tok stack init_sh = Raise credentials_exception /\
       DELETE_stacks t tok stack_id init_sh = Raise credentials_exception).
Proof.
  intros Hjwt Hauth. eexists. split.
  - unfold login_for_access_token. rewrite Hauth. reflexivity.
  - pose proof (authenticate_user_get_user u p user Hauth) as Hu.
    split; intros t Ht.
    + assert (Hg : get_current_user t
                (create_access_token now (mkPayload (Some (username user)) None)
                   (Some (timedelta_minutes ACCESS_TOKEN_EXPIRE_MINUTES))) =
              Return user).
      { unfold get_current_user, create_access_token. rewrite Hjwt.
        unfold timedelta_minutes, ACCESS_TOKEN_EXPIRE_MINUTES. simpl.
        destruct (Z.leb_spec (now + 1800) t); [lia|]. simpl. now rewrite Hu. }
      unfold GET_stacks, POST_stacks, DELETE_stacks, Depends_get_current_user.
      now rewrite Hg.
    + apply rejected_token_stops_request with (e := credentials_exception).
      unfold get_current_user, create_access_token. rewrite Hjwt.
      unfold timedelta_minutes, ACCESS_TOKEN_EXPIRE_MINUTES. simpl.
      destruct (Z.leb_spec (now + 1800) t); [|lia]. reflexivity.
Qed.

(** ** Printing a directory and reading it back *)

Lemma split_from_field (f rest cur : string) :
  has_space f = false ->
  split_from cur (f ++ rest) = split_from (cur ++ f) rest.
Proof.
  revert cur. induction f as [|c f IH]; intros cur H.
  - now rewrite append_nil_r.
  - cbn [has_space] in H. apply orb_false_iff in H as [Hc Hf].
    simpl. rewrite Hc, (IH _ Hf), append_assoc. reflexivity.
Qed.

Lemma split_from_space (cur rest : string) :
  is_empty cur = false ->
  split_from cur (String " " rest) = cur :: split_from "" rest.
Proof. intros H. simpl. now rewrite H. Qed.

Lemma split_listing_line (r : StackResponse.t) :
  record_of_fields_only r = true ->
  split (listing_line r) =
  [StackResponse.id r; StackResponse.phoenixd_domain r;
   StackResponse.lnbits_domain r].
Proof.
  unfold record_of_fields_only, is_field. intros H.
  apply andb_true_iff in H as [H H3]. apply andb_true_iff in H as [H1 H2].
  apply andb_true_iff in H1 as [E1 S1]. apply andb_true_iff in H2 as [E2 S2].
  apply andb_true_iff in H3 as [E3 S3].
  apply negb_true_iff in E1, E2, E3, S1, S2, S3.
  unfold split, listing_line.
  rewrite (split_from_field _ _ "" S1). cbn [append].
  rewrite (split_from_space _ _ E1).
  rewrite (split_from_field _ _ "" S2). cbn [append].
  rewrite (split_from_space _ _ E2).
  rewrite <- (append_nil_r (StackResponse.lnbits_domain r)) at 1.
  rewrite (split_from_field _ _ "" S3). simpl. now rewrite E3.
Qed.

Lemma no_newline_append (a b : string) :
  no_newline (a ++ b) = no_newline a && no_newline b.
Proof.
  induction a as [|c a IH]; simpl; [reflexivity|].
  now rewrite IH, andb_assoc.
Qed.

Lemma no_space_no_newline (s : string) :
  has_space s = false -> no_newline s = true.
Proof.
  induction s as [|c s IH]; [reflexivity|].
  cbn [has_space no_newline]. intros H.
  apply orb_false_iff in H as [Hc Hs]. rewrite (IH Hs), andb_true_r.
  destruct (Ascii.eqb_spec c newline) as [->|]; [discriminate|reflexivity].
Qed.

Lemma no_newline_listing_line (r : StackResponse.t) :
  record_of_fields_only r = true -> no_newline (listing_line r) = true.
Proof.
  unfold record_of_fields_only, is_field. intros H.
  apply andb_true_iff in H as [H H3]. apply andb_true_iff in H as [H1 H2].
  apply andb_true_iff in H1 as [_ S1]. apply andb_true_iff in H2 as [_ S2].
  apply andb_true_iff in H3 as [_ S3].
  apply negb_true_iff in S1, S2, S3.
  unfold listing_line. rewrite !no_newline_append.
  rewrite (no_space_no_newline _ S1), (no_space_no_newline _ S2),
    (no_space_no_newline _ S3). reflexivity.
Qed.

Lemma split_nl_line (v rest : string) :
  no_newline v = true -> split_nl (v ++ nl ++ rest) = v :: split_nl rest.
Proof.
  induction v as [|c v IH]; intros H; [reflexivity|].
  cbn [no_newline] in H. apply andb_true_iff in H as [Hc Hv].
  apply negb_true_iff in Hc. cbn [append split_nl]. now rewrite Hc, (IH Hv).
Qed.

Lemma lines_of_listing (rs : list StackResponse.t) :
  forallb record_of_fields_only rs = true ->
  forallb well_formed_line (split_nl (listing rs)) = true /\
  records (split_nl (listing rs)) = rs.
Proof.
  induction rs as [|r rs IH]; intros H; [now split|].
  cbn [forallb] in H. apply andb_true_iff in H as [Hr Hrs].
  destruct (IH Hrs) as [Hwf Hrec]. cbn [listing].
  rewrite (split_nl_line _ _ (no_newline_listing_line r Hr)).
  pose proof (split_listing_line r Hr) as Hs. split.
  - cbn [forallb]. rewrite Hwf, andb_true_r.
    unfold well_formed_line. rewrite Hs. apply orb_true_r.
  - rewrite records_cons, Hs, Hrec. now destruct r.
Qed.

(** X16.  A directory whose ids and domains are fields, printed one stack
    per line as [<id> <payment domain> <wallet domain>] by a provisioner
    that exits with code 0, is what [get_stacks] returns. *)
Theorem get_stacks_reads_listing (init_sh : provisioner)
    (rs : list StackResponse.t) (err : string) :
  forallb record_of_fields_only rs = true ->
  init_sh "list" None = Exited 0 (listing rs) err ->
  get_stacks init_sh = Return rs.
Proof.
  intros Hrs H. destruct (lines_of_listing rs Hrs) as [Hwf Hrec].
  rewrite (get_stacks_zero _ _ _ H).
  rewrite (get_stacks_loop_well_formed _ _ (well_formed_strip _ Hwf)).
  simpl. now rewrite records_strip, Hrec.
Qed.

End Backend.

(** ** The symbolic tokens are a sound [jwt] *)

Lemma symbolic_jwt_sound : jwt_sound SymbolicJwt.encode SymbolicJwt.decode.
Proof.
  intros now p key alg. unfold SymbolicJwt.decode, SymbolicJwt.encode.
  cbn [existsb]. now rewrite !String.eqb_refl.
Qed.

(** ** The scenarios of the specification *)

Example list_scenario :
  get_stacks sample_init_script (provisioner_that (Exited 0 sample_listing "")) =
  Return [StackResponse.mk "7" "pay.example.com" "wallet.example.com"].
Proof. reflexivity. Qed.

Example add_scenario_stack_42 :
  add_stack sample_init_script sample_stack
    (provisioner_that (Exited 0 sample_add_output "")) =
  Return (StackResponse.mk "42" "pay.example.com" "wallet.example.com").
Proof. reflexivity. Qed.

Example add_scenario_certificate_failure :
  add_stack sample_init_script sample_stack
    (provisioner_that (Exited 1 "" "certificate issuance failed")) =
  Raise (HTTPException 500
           "500: Failed to add stack: certificate issuance failed" None).
Proof. reflexivity. Qed.

Example list_scenario_undecodable :
  get_stacks sample_init_script
    (provisioner_that (Undecodable "invalid start byte")) =
  Raise (UnicodeDecodeError "invalid start byte").
Proof. reflexivity. Qed.

Example add_scenario_missing_binary :
  add_stack sample_init_script sample_stack
    (provisioner_that (StartFailure 2 "No such file or directory")) =
  Raise (HTTPException 500
           "[Errno 2] No such file or directory: '/opt/lightstack/init.sh'" None).
Proof. reflexivity. Qed.

(** ** The claims at sample inputs *)

Lemma add_stack_extracts_id_witness :
  provisioner_that (Exited 0 sample_add_output "") "add"
    (Some (answers sample_stack)) = Exited 0 sample_add_output "" /\
  add_stack sample_init_script sample_stack
    (provisioner_that (Exited 0 sample_add_output "")) =
  Return (StackResponse.mk "42" "pay.example.com" "wallet.example.com").
Proof.
  split; [reflexivity|].
  apply (proj1 (add_stack_extracts_id sample_init_script sample_stack
                  (provisioner_that (Exited 0 sample_add_output ""))
                  sample_add_output "" eq_refl)
           "Created " "42" (" ok" ++ nl)); reflexivity.
Defined.

Lemma nonzero_exit_carries_stderr_witness :
  1 <> 0 /\
  add_stack sample_init_script sample_stack
    (provisioner_that (Exited 1 "" "certificate issuance failed")) =
  Raise (HTTPException 500
           "500: Failed to add stack: certificate issuance failed" None).
Proof.
  split; [discriminate|].
  apply (proj1 (proj2 (nonzero_exit_carries_stderr sample_init_script
                         (provisioner_that
                            (Exited 1 "" "certificate issuance failed"))
                         sample_stack "7" 1 "" "certificate issuance failed"
                         ltac:(discriminate)))).
  reflexivity.
Defined.

Lemma get_stacks_well_formed_listing_witness :
  forallb well_formed_line (split_nl sample_listing) = true /\
  exists stacks,
    get_stacks sample_init_script
      (provisioner_that (Exited 0 sample_listing "")) = Return stacks /\
    length stacks = 1%nat /\
    Forall2 matches_line ["7 pay.example.com wallet.example.com"] stacks.
Proof.
  split; [reflexivity|].
  apply (get_stacks_well_formed_listing sample_init_script
           (provisioner_that (Exited 0 sample_listing "")) sample_listing "");
    reflexivity.
Defined.

Lemma answers_six_lines_witness :
  no_newline (Stack.phoenixd_domain sample_stack) = true /\
  no_newline (Stack.lnbits_domain sample_stack) = true /\
  stdin_lines (answers sample_stack) =
    ["pay.example.com"; "wallet.example.com"; "n"; ""; "n"; "y"] /\
  stdin_line 4 (answers sample_stack) = Some "".
Proof.
  split; [reflexivity|]. split; [reflexivity|].
  destruct (answers_six_lines sample_stack eq_refl eq_refl eq_refl)
    as (Hlines & _ & Hfour).
  split; [exact Hlines | exact (Hfour eq_refl)].
Defined.

Lemma start_failure_distinguishable_witness :
  1 <> 0 /\
  add_stack sample_init_script sample_stack
    (provisioner_that (StartFailure 2 "No such file or directory")) =
  Raise (HTTPException 500
           "[Errno 2] No such file or directory: '/opt/lightstack/init.sh'"
           None) /\
  add_stack sample_init_script sample_stack
    (provisioner_that (Exited 1 "" "certificate issuance failed")) =
  Raise (HTTPException 500
           "500: Failed to add stack: certificate issuance failed" None) /\
  add_stack sample_init_script sample_stack
    (provisioner_that (StartFailure 2 "No such file or directory")) <>
  add_stack sample_init_script sample_stack
    (provisioner_that (Exited 1 "" "certificate issuance failed")).
Proof.
  split; [discriminate|].
  apply (proj1 (proj2 (start_failure_distinguishable sample_init_script
                         (provisioner_that
                            (StartFailure 2 "No such file or directory"))
                         (provisioner_that
                            (Exited 1 "" "certificate issuance failed"))
                         sample_stack "7" 2 "No such file or directory"
                         1 "" "certificate issuance failed"
                         ltac:(discriminate))));
    reflexivity.
Defined.


Lemma get_current_user_rejects_uniformly_witness :
  get_current_user "k" SymbolicJwt.token SymbolicJwt.decode 0
    sample_token_garbage = Raise credentials_exception /\
  get_current_user "k" SymbolicJwt.token SymbolicJwt.decode 5000
    sample_token_expired = Raise credentials_exception /\
  credentials_exception =
    HTTPException 401 "Could not validate credentials"
      (Some [("WWW-Authenticate", "Bearer")]).
Proof.
  split; [reflexivity|]. split; [reflexivity|].
  apply (get_current_user_rejects_uniformly "k" SymbolicJwt.token
           SymbolicJwt.decode 0 5000 sample_token_garbage sample_token_expired
           credentials_exception credentials_exception);
    reflexivity.
Defined.

Lemma login_token_expires_after_30_minutes_witness :
  authenticate_user "admin" "adminpassword" =
    Some (mkUser "admin" "adminpassword") /\
  exists tok,
    login_for_access_token "k" SymbolicJwt.token SymbolicJwt.encode 100
      "admin" "adminpassword" = Return (Token.mk tok "bearer") /\
    tok = SymbolicJwt.encode (mkPayload (Some "admin") (Some (100 + 30 * 60)))
            "k" ALGORITHM /\
    (forall t, t < 100 + 30 * 60 ->
       get_current_user "k" SymbolicJwt.token SymbolicJwt.decode t tok =
       Return (mkUser "admin" "adminpassword")) /\
    (forall t, 100 + 30 * 60 <= t ->
       get_current_user "k" SymbolicJwt.token SymbolicJwt.decode t tok =
       Raise credentials_exception).
Proof.
  split; [reflexivity|].
  apply (login_token_expires_after_30_minutes "k" SymbolicJwt.token
           SymbolicJwt.encode SymbolicJwt.decode 100 "admin" "adminpassword"
           (mkUser "admin" "adminpassword") symbolic_jwt_sound);
    reflexivity.
Defined.

Lemma answers_line4_None_witness :
  Stack.use_real_certs sample_stack_no_email = true /\
  Stack.email sample_stack_no_email = None /\
  stdin_line 4 (answers sample_stack_no_email) = Some "None".
Proof.
  split; [reflexivity|]. split; [reflexivity|].
  apply (answers_line4_None sample_stack_no_email); reflexivity.
Defined.

Lemma catch_all_wraps_failures_witness :
  add_stack_body sample_init_script sample_stack
    (provisioner_that (Exited 1 "" "certificate issuance failed")) =
  Raise (HTTPException 500 "Failed to add stack: certificate issuance failed"
           None) /\
  add_stack sample_init_script sample_stack
    (provisioner_that (Exited 1 "" "certificate issuance failed")) =
  Raise (HTTPException 500
           "500: Failed to add stack: certificate issuance failed" None).
Proof.
  split; [reflexivity|].
  apply (proj1 (catch_all_wraps_failures sample_init_script sample_stack "7"
                  (provisioner_that
                     (Exited 1 "" "certificate issuance failed")))
           (HTTPException 500
              "Failed to add stack: certificate issuance failed" None)).
  reflexivity.
Defined.

(** ** Where the claims as written fail *)

(** C4 as written: a payment domain of two lines makes seven lines of
    input, and line 4 is the answer about certificates. *)
Lemma answers_seven_lines_counterexample :
  length (stdin_lines (answers sample_stack_two_lines)) = 7%nat /\
  Stack.use_real_certs sample_stack_two_lines = false /\
  stdin_line 4 (answers sample_stack_two_lines) = Some "n" /\
  ~ (forall stack : Stack.t,
       length (stdin_lines (answers stack)) = 6%nat /\
       (Stack.use_real_certs stack = false ->
        stdin_line 4 (answers stack) = Some "")).
Proof.
  repeat split. intros H.
  destruct (H sample_stack_two_lines) as [H6 _]. discriminate H6.
Qed.


(** C9 as written: with a payment domain of two lines, line 4 is the
    answer about certificates and [None] is line 5. *)
Lemma answers_line4_counterexample :
  Stack.use_real_certs sample_stack_two_lines_no_email = true /\
  Stack.email sample_stack_two_lines_no_email = None /\
  stdin_line 4 (answers sample_stack_two_lines_no_email) = Some "y" /\
  ~ (forall stack : Stack.t,
       Stack.use_real_certs stack = true -> Stack.email stack = None ->
       stdin_line 4 (answers stack) = Some "None").
Proof.
  repeat split. intros H.
  specialize (H sample_stack_two_lines_no_email eq_refl eq_refl).
  discriminate H.
Qed.

(** ** The further properties at sample inputs *)

Lemma authenticate_user_iff_witness :
  authenticate_user "admin" "adminpassword" =
  Some (mkUser "admin" "adminpassword").
Proof.
  apply (proj2 (authenticate_user_iff "admin" "adminpassword"
                  (mkUser "admin" "adminpassword"))).
  split; reflexivity.
Defined.

Lemma login_rejects_uniformly_witness :
  login_for_access_token "k" SymbolicJwt.token SymbolicJwt.encode 0
    "nobody" "adminpassword" =
  login_for_access_token "k" SymbolicJwt.token SymbolicJwt.encode 5
    "admin" "Adminpassword".
Proof.
  destruct (login_rejects_uniformly "k" SymbolicJwt.token SymbolicJwt.encode
              0 5 "nobody" "adminpassword" "admin" "Adminpassword"
              _ _ eq_refl eq_refl) as [E _].
  exact (f_equal Raise E).
Defined.

Lemma create_access_token_round_trip_witness :
  SymbolicJwt.decode 200
    (create_access_token "k" SymbolicJwt.token SymbolicJwt.encode 100
       (mkPayload (Some "admin") None) (Some 0))
    "k" [ALGORITHM] =
  inr (mkPayload (Some "admin") (Some 1000)).
Proof.
  apply (proj1 (create_access_token_round_trip "k" SymbolicJwt.token
                  SymbolicJwt.encode SymbolicJwt.decode 100 200
                  (mkPayload (Some "admin") None) (Some 0)
                  symbolic_jwt_sound)).
  right. reflexivity.
Defined.

Lemma get_current_user_returns_iff_witness :
  get_current_user "k" SymbolicJwt.token SymbolicJwt.decode 1000
    sample_token_expired = Return (mkUser "admin" "adminpassword").
Proof.
  apply (proj2 (get_current_user_returns_iff "k" SymbolicJwt.token
                  SymbolicJwt.decode 1000 sample_token_expired
                  (mkUser "admin" "adminpassword"))).
  exists (mkPayload (Some "admin") (Some 1900)), "admin".
  repeat split; reflexivity.
Defined.

Lemma add_and_remove_raise_only_500_witness :
  exists detail,
    HTTPException 500 "[Errno 13] Permission denied: '/opt/lightstack/init.sh'"
      None =
    HTTPException 500 detail None.
Proof.
  apply (add_and_remove_raise_only_500 sample_init_script sample_stack "7"
           (provisioner_that (StartFailure 13 "Permission denied"))).
  right. reflexivity.
Defined.

Lemma get_stacks_raises_witness :
  get_stacks sample_init_script
    (provisioner_that (Undecodable "invalid start byte")) =
  Raise (UnicodeDecodeError "invalid start byte") /\
  ((exists errno strerror,
       provisioner_that (Undecodable "invalid start byte") "list" None =
         StartFailure errno strerror /\
       UnicodeDecodeError "invalid start byte" =
         OSError errno strerror sample_init_script) \/
   (exists msg,
       provisioner_that (Undecodable "invalid start byte") "list" None =
         Undecodable msg /\
       UnicodeDecodeError "invalid start byte" = UnicodeDecodeError msg) \/
   (exists rc out err,
       provisioner_that (Undecodable "invalid start byte") "list" None =
         Exited rc out err /\ rc <> 0 /\
       UnicodeDecodeError "invalid start byte" =
         HTTPException 500 ("Failed to list stacks: " ++ err) None) \/
   (exists out err msg,
       provisioner_that (Undecodable "invalid start byte") "list" None =
         Exited 0 out err /\
       existsb malformed_line (split_nl (strip out)) = true /\
       UnicodeDecodeError "invalid start byte" = ValueError msg)).
Proof.
  split; [reflexivity|].
  apply (get_stacks_raises sample_init_script
           (provisioner_that (Undecodable "invalid start byte"))).
  reflexivity.
Defined.

Lemma get_stacks_blank_output_witness :
  all_space (" " ++ nl ++ nl) = true /\
  get_stacks sample_init_script
    (provisioner_that (Exited 0 (" " ++ nl ++ nl) "warning")) = Return [].
Proof.
  split; [reflexivity|].
  apply (get_stacks_blank_output sample_init_script
           (provisioner_that (Exited 0 (" " ++ nl ++ nl) "warning"))
           (" " ++ nl ++ nl) "warning"); reflexivity.
Defined.

Lemma get_stacks_returns_iff_witness :
  existsb malformed_line (split_nl (strip sample_listing_white_first)) = false /\
  get_stacks sample_init_script
    (provisioner_that (Exited 0 sample_listing_white_first "")) =
  Return [StackResponse.mk "7" "pay.example.com" "wallet.example.com"].
Proof.
  split; [reflexivity|].
  apply (proj2 (get_stacks_returns_iff sample_init_script
                  (provisioner_that (Exited 0 sample_listing_white_first ""))
                  sample_listing_white_first ""
                  [StackResponse.mk "7" "pay.example.com" "wallet.example.com"]
                  eq_refl)).
  split; reflexivity.
Defined.

Lemma get_stacks_fields_witness :
  get_stacks sample_init_script (provisioner_that (Exited 0 sample_listing "")) =
    Return [StackResponse.mk "7" "pay.example.com" "wallet.example.com"] /\
  Forall (fun r => record_of_fields_only r = true)
    [StackResponse.mk "7" "pay.example.com" "wallet.example.com"].
Proof.
  split; [reflexivity|].
  apply (get_stacks_fields sample_init_script
           (provisioner_that (Exited 0 sample_listing ""))).
  reflexivity.
Defined.

Lemma get_stacks_padding_witness :
  all_space (nl ++ "  ") = true /\ all_space (" " ++ nl) = true /\
  get_stacks sample_init_script
    (provisioner_that (Exited 0 sample_listing_padded "")) =
  get_stacks sample_init_script (provisioner_that (Exited 0 sample_listing "")).
Proof.
  split; [reflexivity|]. split; [reflexivity|].
  apply (get_stacks_padding sample_init_script
           (provisioner_that (Exited 0 sample_listing ""))
           (provisioner_that (Exited 0 sample_listing_padded ""))
           (nl ++ "  ") sample_listing (" " ++ nl) "" "");
    reflexivity.
Defined.

Lemma add_stack_returns_witness :
  add_stack sample_init_script sample_stack
    (provisioner_that (Exited 0 sample_add_output "")) =
    Return (StackResponse.mk "42" "pay.example.com" "wallet.example.com") /\
  exists out err pre rest,
    provisioner_that (Exited 0 sample_add_output "") "add"
      (Some (answers sample_stack)) = Exited 0 out err /\
    out = pre ++ "stack_" ++ "42" ++ rest /\
    is_empty "42" = false /\ all_digits "42" = true /\
    "pay.example.com" = Stack.phoenixd_domain sample_stack /\
    "wallet.example.com" = Stack.lnbits_domain sample_stack.
Proof.
  split; [reflexivity|].
  apply (add_stack_returns sample_init_script sample_stack
           (provisioner_that (Exited 0 sample_add_output ""))
           (StackResponse.mk "42" "pay.example.com" "wallet.example.com")).
  reflexivity.
Defined.


Lemma del_answers_lines_witness :
  no_newline "7" = true /\
  stdin_lines (del_answers "7") = ["7"; "y"] /\
  length (stdin_lines (del_answers sample_stack_id_two_lines)) = 3%nat.
Proof.
  split; [reflexivity|]. split.
  - apply (proj2 (del_answers_lines "7")). reflexivity.
  - apply (proj1 (del_answers_lines sample_stack_id_two_lines)).
Defined.

Lemma login_then_request_witness :
  authenticate_user "admin" "adminpassword" =
    Some (mkUser "admin" "adminpassword") /\
  exists tok,
    login_for_access_token "k" SymbolicJwt.token SymbolicJwt.encode 100
      "admin" "adminpassword" = Return (Token.mk tok "bearer") /\
    GET_stacks sample_init_script "k" SymbolicJwt.token SymbolicJwt.decode
      1899 tok (provisioner_that (Exited 0 sample_listing "")) =
    Return sample_directory_one /\
    GET_stacks sample_init_script "k" SymbolicJwt.token SymbolicJwt.decode
      1900 tok (provisioner_that (Exited 0 sample_listing "")) =
    Raise credentials_exception.
Proof.
  split; [reflexivity|].
  destruct (login_then_request sample_init_script "k" SymbolicJwt.token
              SymbolicJwt.encode SymbolicJwt.decode 100
              "admin" "adminpassword" (mkUser "admin" "adminpassword")
              sample_stack "7" (provisioner_that (Exited 0 sample_listing ""))
              symbolic_jwt_sound eq_refl) as (tok & Hl & Hbefore & Hafter).
  exists tok. split; [exact Hl|]. split.
  - destruct (Hbefore 1899 ltac:(lia)) as [-> _]. reflexivity.
  - destruct (Hafter 1900 ltac:(lia)) as [-> _]. reflexivity.
Defined.

Lemma get_stacks_reads_listing_witness :
  forallb record_of_fields_only sample_directory = true /\
  get_stacks sample_init_script
    (provisioner_that (Exited 0 (listing sample_directory) "")) =
  Return sample_directory.
Proof.
  split; [reflexivity|].
  apply (get_stacks_reads_listing sample_init_script
           (provisioner_that (Exited 0 (listing sample_directory) ""))
           sample_directory ""); reflexivity.
Defined.
